(** * py-api: the user-account core (repository and use cases)

    A shallow embedding of

      - [infrastructure/repositories/user_repository.py]
        ([SQLAlchemyUserRepository]),
      - [application/users/create_user_use_case.py] ([CreateUserUseCase]),
      - [application/delete_user_use_case.py] ([DeleteUserUseCase]),
      - [transport/http/v1/schemas/user.py] and
        [transport/http/v1/routes/users.py],

    over a small operational model of the SQLAlchemy [Session] the
    repository drives.  Python code that mutates objects and raises
    exceptions becomes code in a state monad whose result is either a
    returned value or a raised exception; the state survives a raise, as
    the Python heap and the database do. *)

From Stdlib Require Import ZArith Ascii String List Bool Lia.
Import ListNotations.

Local Open Scope Z_scope.

(** ** Exceptions and outcomes *)

(** The exceptions this code can raise: [ValueError], from the use cases
    and from the database driver, and the SQLAlchemy errors that the
    repository lets through ([sqlalchemy.exc.IntegrityError] on a violated
    constraint, [sqlalchemy.exc.DataError] on a value the column cannot
    hold, [sqlalchemy.exc.InvalidRequestError] on a misuse of the
    session). *)
Inductive exn : Type :=
| ValueError (msg : string)
| IntegrityError
| InvalidRequestError
| DataError.

Inductive outcome (A : Type) : Type :=
| Returned (a : A)
| Raised (e : exn).

Arguments Returned {A} a.
Arguments Raised {A} e.

(** ** Data model *)

(** Modelled from the spec: [domain/user.py] is not among the sources.
    The entity has an optional [id] (absent before the first save), [name],
    [email], [password_hash] and [is_active]; the repository reads exactly
    these five attributes and the delete use case assigns [is_active]. *)
Module User.
Record t : Type := mk
  { id : option Z;
    name : string;
    email : string;
    password_hash : string;
    is_active : bool }.

(** [user.is_active = v] *)
Definition set_is_active (v : bool) (u : t) : t :=
  mk (id u) (name u) (email u) (password_hash u) v.

(** Modelled from the spec: the value [User(...)] gives [is_active] when
    the argument is left out ("defaults true on creation"). *)
Definition default_is_active : bool := true.
End User.

(** Modelled from the spec: [infrastructure/models/user.py] is not among
    the sources.  A mapped instance carries the attributes the repository
    sets and reads; its [id] is [None] until the row is inserted. *)
Module UserModel.
Record t : Type := mk
  { id : option Z;
    name : string;
    email : string;
    password_hash : string;
    is_active : bool }.

Definition set_id (v : option Z) (o : t) : t :=
  mk v (name o) (email o) (password_hash o) (is_active o).
End UserModel.

(** A row of the [users] table.  Modelled from the spec: integer primary
    key assigned by the store, name, email under a unique constraint,
    password_hash, is_active. *)
Module Row.
Record t : Type := mk
  { id : Z;
    name : string;
    email : string;
    password_hash : string;
    is_active : bool }.

Definition of_instance (pk : Z) (o : UserModel.t) : t :=
  mk pk (UserModel.name o) (UserModel.email o)
     (UserModel.password_hash o) (UserModel.is_active o).

Definition to_instance (r : t) : UserModel.t :=
  UserModel.mk (Some (id r)) (name r) (email r) (password_hash r)
               (is_active r).

(** [UserModel.id == k] and [UserModel.email == e] as row filters. *)
Definition has_id (k : Z) (r : t) : bool := id r =? k.
Definition has_email (e : string) (r : t) : bool := String.eqb (email r) e.
End Row.

(** ** What the store accepts *)

(** The store is the PostgreSQL database of [core/config.py]
    ([DATABASE_URL = "postgresql://..."]), reached through its default
    driver.  The driver refuses, with a [ValueError], every text parameter
    that holds the character NUL, before the statement is sent. *)
Fixpoint has_nul (s : string) : bool :=
  match s with
  | EmptyString => false
  | String c s' => Ascii.eqb c Ascii.zero || has_nul s'
  end.

Definition nul_message : string :=
  "A string literal cannot contain NUL (0x00) characters.".

(** The three text columns of a row, as parameters of one statement. *)
Definition refused_text (name email password_hash : string) : bool :=
  has_nul name || has_nul email || has_nul password_hash.

(** Modelled from the spec: the key is an "integer primary key", which in
    PostgreSQL is the four-byte [integer]; a key outside its range is
    refused by the server, whether the statement gives it or the sequence
    does. *)
Definition id_min : Z := -2147483648.

Definition id_max : Z := 2147483647.

Definition in_range (k : Z) : bool := (id_min <=? k) && (k <=? id_max).

(** The database: the table in storage order and the sequence that feeds
    the primary key. *)
Record Database : Type := mkDatabase
  { users : list Row.t;
    users_id_seq : Z }.

Definition empty_database : Database := mkDatabase [] 1.

(** ** The session *)

(** Mapped instances are Python objects: the repository holds a reference
    to one, the session holds references to the ones it manages, and both
    see every mutation.  [objects] is the heap of instances allocated
    during the request, addressed by position. *)
Definition ref : Type := nat.

Record Session : Type := mkSession
  { objects : list UserModel.t;
    new : list ref;                (* Session.new: pending instances *)
    identity_map : list (Z * ref); (* persistent instances, by primary key *)
    database : Database }.

(** Modelled from the spec: [infrastructure/database.py] ([get_db]) is not
    among the sources.  Each request runs to completion in a session of its
    own, which starts with nothing loaded and nothing pending. *)
Definition SessionLocal (d : Database) : Session := mkSession [] [] [] d.

Definition M (A : Type) : Type := Session -> outcome A * Session.

Definition ret {A} (a : A) : M A := fun s => (Returned a, s).

Definition raise {A} (e : exn) : M A := fun s => (Raised e, s).

Definition bind {A B} (m : M A) (k : A -> M B) : M B :=
  fun s =>
    match m s with
    | (Returned a, s') => k a s'
    | (Raised e, s') => (Raised e, s')
    end.

Declare Scope py_scope.
Delimit Scope py_scope with py.
Notation "x <- m ;; k" := (bind m (fun x => k))
  (at level 61, m at next level, right associativity) : py_scope.
Notation "m ;; k" := (bind m (fun _ => k))
  (at level 61, right associativity) : py_scope.
Local Open Scope py_scope.

(** *** The heap of instances *)

Definition blank : UserModel.t :=
  UserModel.mk None EmptyString EmptyString EmptyString false.

Definition deref (s : Session) (r : ref) : UserModel.t :=
  nth r (objects s) blank.

Fixpoint update {A} (r : nat) (f : A -> A) (l : list A) : list A :=
  match l, r with
  | [], _ => []
  | x :: l', O => f x :: l'
  | x :: l', S r' => x :: update r' f l'
  end.

Definition with_objects (h : list UserModel.t) (s : Session) : Session :=
  mkSession h (new s) (identity_map s) (database s).

(** [UserModel(name=..., email=..., password_hash=..., is_active=...)]:
    a fresh transient instance, without primary key. *)
Definition UserModel_init (name email password_hash : string)
    (is_active : bool) : M ref :=
  fun s =>
    (Returned (length (objects s)),
     with_objects
       (objects s ++ [UserModel.mk None name email password_hash is_active])
       s).

(** [instance.id = v] *)
Definition setattr_id (r : ref) (v : option Z) : M unit :=
  fun s => (Returned tt,
            with_objects (update r (UserModel.set_id v) (objects s)) s).

(** Reading the attributes of an instance. *)
Definition getattrs (r : ref) : M UserModel.t :=
  fun s => (Returned (deref s r), s).

(** *** SQL statements *)

(** The text parameters of an UPDATE: SQLAlchemy sets the columns whose
    value differs from the one the row has. *)
Definition changed (value stored : string) : list string :=
  if String.eqb value stored then [] else [value].

Definition UPDATE_text (pk : Z) (o : UserModel.t) (tbl : list Row.t)
  : list string :=
  match find (Row.has_id pk) tbl with
  | Some row =>
      changed (UserModel.name o) (Row.name row)
      ++ changed (UserModel.email o) (Row.email row)
      ++ changed (UserModel.password_hash o) (Row.password_hash row)
  | None => []
  end.

(** [UPDATE users SET ... WHERE id = pk]: refused by the driver when a text
    it sets holds NUL, and by the unique constraint of the schema when
    another row already has the e-mail. *)
Definition UPDATE (pk : Z) (o : UserModel.t) (tbl : list Row.t)
  : exn + list Row.t :=
  if existsb has_nul (UPDATE_text pk o tbl)
  then inl (ValueError nul_message)
  else if existsb (fun r => negb (Row.has_id pk r)
                            && Row.has_email (UserModel.email o) r) tbl
  then inl IntegrityError
  else inr (map (fun r => if Row.has_id pk r then Row.of_instance pk o else r)
                tbl).

(** [INSERT INTO users ...].  The driver refuses a text that holds NUL and
    nothing reaches the server.  Otherwise the primary key is the
    instance's own when it has one and the next value of the sequence when
    it has none; a key outside the range of the column is refused with
    [DataError]; a key or an e-mail that a row already has is refused with
    [IntegrityError], and the sequence stays advanced. *)
Definition INSERT (o : UserModel.t) (d : Database) : (exn + Z) * Database :=
  if refused_text (UserModel.name o) (UserModel.email o)
                  (UserModel.password_hash o)
  then (inl (ValueError nul_message), d)
  else
    let '(pk, seq) :=
      match UserModel.id o with
      | Some k => (k, users_id_seq d)
      | None => (users_id_seq d, users_id_seq d + 1)
      end in
    if negb (in_range pk) then (inl DataError, d)
    else if existsb (fun r => Row.has_id pk r
                              || Row.has_email (UserModel.email o) r)
                    (users d)
    then (inl IntegrityError, mkDatabase (users d) seq)
    else (inr pk, mkDatabase (users d ++ [Row.of_instance pk o]) seq).

(** *** Session operations *)

Definition lookup_identity (pk : Z) (im : list (Z * ref)) : option ref :=
  option_map snd (find (fun e => fst e =? pk) im).

(** The primary key under which [r] is persistent in the session. *)
Definition persistent_key (r : ref) (im : list (Z * ref)) : option Z :=
  option_map fst (find (fun e => Nat.eqb (snd e) r) im).

(** The two filters of the repository: [UserModel.id == k] and
    [UserModel.email == e]. *)
Inductive filter : Type :=
| id_is (k : Z)
| email_is (e : string).

Definition satisfies (f : filter) : Row.t -> bool :=
  match f with
  | id_is k => Row.has_id k
  | email_is e => Row.has_email e
  end.

(** The parameter of a filter that the driver refuses: a text with NUL.
    An integer is sent as a literal of any size and compared as such. *)
Definition refused_parameter (f : filter) : bool :=
  match f with
  | id_is _ => false
  | email_is e => has_nul e
  end.

(** [Query.filter(f).first()]: the first row that satisfies [f], as the
    instance the identity map has for its key, or as a new persistent
    instance.  Selection order is immaterial where the filter is on a
    unique column.  A parameter that the driver refuses raises its
    [ValueError].  No stored text holds NUL, since the insert of one is
    refused the same way, so a refused parameter is one that no row
    matches, and the refusal is written in that branch.  (No query of this
    program runs with pending work in the session, so autoflush has nothing
    to do and is left out.) *)
Definition query_first (f : filter) : M (option ref) :=
  fun s =>
    match find (satisfies f) (users (database s)) with
    | None =>
        if refused_parameter f then (Raised (ValueError nul_message), s)
        else (Returned None, s)
    | Some row =>
        match lookup_identity (Row.id row) (identity_map s) with
        | Some r => (Returned (Some r), s)
        | None =>
            let r := length (objects s) in
            (Returned (Some r),
             mkSession (objects s ++ [Row.to_instance row]) (new s)
                       ((Row.id row, r) :: identity_map s) (database s))
        end
    end.

(** [Session.add(instance)]: a transient instance becomes pending. *)
Definition Session_add (r : ref) : M unit :=
  fun s =>
    match persistent_key r (identity_map s) with
    | Some _ => (Returned tt, s)
    | None =>
        if existsb (Nat.eqb r) (new s) then (Returned tt, s)
        else (Returned tt,
              mkSession (objects s) (new s ++ [r]) (identity_map s)
                        (database s))
    end.

(** [Session.merge(instance)]: copy the state of [instance] onto the
    instance of the same primary key that the session has in its identity
    map, loads from the table, or creates as a pending one, and return that
    target.  The source is left as it was and is not associated with the
    session. *)
Definition Session_merge (r : ref) : M ref :=
  fun s =>
    let src := deref s r in
    let fresh := length (objects s) in
    match UserModel.id src with
    | None =>
        (Returned fresh,
         mkSession (objects s ++ [src]) (new s ++ [fresh]) (identity_map s)
                   (database s))
    | Some pk =>
        match lookup_identity pk (identity_map s) with
        | Some target =>
            (Returned target,
             with_objects (update target (fun _ => src) (objects s)) s)
        | None =>
            match find (Row.has_id pk) (users (database s)) with
            | Some _ =>
                (Returned fresh,
                 mkSession (objects s ++ [src]) (new s)
                           ((pk, fresh) :: identity_map s) (database s))
            | None =>
                (Returned fresh,
                 mkSession (objects s ++ [src]) (new s ++ [fresh])
                           (identity_map s) (database s))
            end
        end
    end.

(** The UPDATE statements of a flush.  SQLAlchemy emits one for each
    persistent instance whose attributes changed; the model writes every
    persistent instance back, which for an unchanged one restates the row
    it was loaded from. *)
Fixpoint flush_updates (h : list UserModel.t) (im : list (Z * ref))
    (tbl : list Row.t) : exn + list Row.t :=
  match im with
  | [] => inr tbl
  | (pk, r) :: im' =>
      match UPDATE pk (nth r h blank) tbl with
      | inl e => inl e
      | inr tbl' => flush_updates h im' tbl'
      end
  end.

(** The INSERT statements of a flush: one for each pending instance, which
    receives its primary key and becomes persistent.  [inl] in the first
    component reports a refused insert. *)
Fixpoint flush_inserts (pending : list ref) (h : list UserModel.t)
    (im : list (Z * ref)) (d : Database)
  : (exn + list UserModel.t * list (Z * ref)) * Database :=
  match pending with
  | [] => (inr (h, im), d)
  | r :: pending' =>
      match INSERT (nth r h blank) d with
      | (inl e, d') => (inl e, d')
      | (inr pk, d') =>
          flush_inserts pending'
            (update r (UserModel.set_id (Some pk)) h) ((pk, r) :: im) d'
      end
  end.

(** [Session.commit()]: flush, then commit.  A refused statement raises
    its exception and the transaction is rolled back: the table is the one
    before the flush. *)
Definition Session_commit : M unit :=
  fun s =>
    let d := database s in
    match flush_updates (objects s) (identity_map s) (users d) with
    | inl e => (Raised e, s)
    | inr tbl =>
        match flush_inserts (new s) (objects s) (identity_map s)
                            (mkDatabase tbl (users_id_seq d)) with
        | (inl e, d') =>
            (Raised e,
             mkSession (objects s) (new s) (identity_map s)
                       (mkDatabase (users d) (users_id_seq d')))
        | (inr (h, im), d') => (Returned tt, mkSession h [] im d')
        end
    end.

(** [Session.refresh(instance)]: reload the attributes of a persistent
    instance from its row.  An instance that is not persistent in this
    session is refused with [InvalidRequestError] ("Instance ... is not
    persistent within this Session"), and so is one whose row is gone. *)
Definition Session_refresh (r : ref) : M unit :=
  fun s =>
    match persistent_key r (identity_map s) with
    | None => (Raised InvalidRequestError, s)
    | Some pk =>
        match find (Row.has_id pk) (users (database s)) with
        | None => (Raised InvalidRequestError, s)
        | Some row =>
            (Returned tt,
             with_objects (update r (fun _ => Row.to_instance row) (objects s))
                          s)
        end
    end.

(** ** The repository: [SQLAlchemyUserRepository] *)

(** Python truthiness of an [Optional[int]]: [None] and [0] are false. *)
Definition truthy (v : option Z) : bool :=
  match v with
  | None => false
  | Some k => negb (k =? 0)
  end.

Definition User_of_instance (o : UserModel.t) : User.t :=
  User.mk (UserModel.id o) (UserModel.name o) (UserModel.email o)
          (UserModel.password_hash o) (UserModel.is_active o).

Module SQLAlchemyUserRepository.

Definition save (user : User.t) : M User.t :=
  user_model <- UserModel_init (User.name user) (User.email user)
                  (User.password_hash user) (User.is_active user) ;;
  (if truthy (User.id user) then
     setattr_id user_model (User.id user) ;;
     _ <- Session_merge user_model ;;
     ret tt
   else
     Session_add user_model) ;;
  Session_commit ;;
  Session_refresh user_model ;;
  o <- getattrs user_model ;;
  ret (User_of_instance o).

Definition find_by_email (email : string) : M (option User.t) :=
  user_model <- query_first (email_is email) ;;
  match user_model with
  | Some r => o <- getattrs r ;; ret (Some (User_of_instance o))
  | None => ret None
  end.

Definition find_by_id (user_id : Z) : M (option User.t) :=
  user_model <- query_first (id_is user_id) ;;
  match user_model with
  | Some r => o <- getattrs r ;; ret (Some (User_of_instance o))
  | None => ret None
  end.

End SQLAlchemyUserRepository.

(** ** The use cases *)

Section UseCases.

(** [Security.get_password_hash]: [infrastructure/security.py] is not
    among the sources, so the hasher is a parameter; nothing below
    depends on what it computes. *)
Variable get_password_hash : string -> string.

Definition CreateUserUseCase_execute (name email password : string)
  : M User.t :=
  existing <- SQLAlchemyUserRepository.find_by_email email ;;
  match existing with
  | Some _ => raise (ValueError "Email already registered")
  | None =>
      let password_hash := get_password_hash password in
      let user :=
        User.mk None name email password_hash User.default_is_active in
      SQLAlchemyUserRepository.save user
  end.

Definition DeleteUserUseCase_execute (user_id : Z) : M User.t :=
  found <- SQLAlchemyUserRepository.find_by_id user_id ;;
  match found with
  | None => raise (ValueError "User not found")
  | Some user =>
      let user := User.set_is_active false user in
      SQLAlchemyUserRepository.save user
  end.

End UseCases.

(** ** Requests against the store *)

(** One use-case call, as the routes make it: in a session of its own over
    the database, which is what remains when the session is closed. *)
Inductive operation : Type :=
| Create (name email password : string)
| Delete (user_id : Z).

Section Store.

Variable get_password_hash : string -> string.

Definition perform (op : operation) (d : Database)
  : outcome User.t * Database :=
  let '(result, s) :=
    match op with
    | Create name email password =>
        CreateUserUseCase_execute get_password_hash name email password
                                  (SessionLocal d)
    | Delete user_id => DeleteUserUseCase_execute user_id (SessionLocal d)
    end in
  (result, database s).

Fixpoint perform_all (ops : list operation) (d : Database) : Database :=
  match ops with
  | [] => d
  | op :: ops' => perform_all ops' (snd (perform op d))
  end.

End Store.

(** The constraints of the schema, and the sequence ahead of every key it
    has handed out. *)
Record wf (d : Database) : Prop := mk_wf
  { wf_ids : NoDup (map Row.id (users d));
    wf_emails : NoDup (map Row.email (users d));
    wf_seq : Forall (fun r => 0 < Row.id r < users_id_seq d) (users d);
    wf_seq_pos : 0 < users_id_seq d }.

(** The row [Delete] leaves in place of [r]. *)
Definition deactivated (r : Row.t) : Row.t :=
  Row.mk (Row.id r) (Row.name r) (Row.email r) (Row.password_hash r) false.

(** The table after the row of key [pk] has been deactivated. *)
Definition deactivate (pk : Z) (tbl : list Row.t) : list Row.t :=
  map (fun r => if Row.has_id pk r then deactivated r else r) tbl.

(** [t'] has every row of [t], at the same place, with the same id, name,
    e-mail and password hash, and inactive if it was inactive in [t]. *)
Definition kept (t t' : list Row.t) : Prop :=
  forall n r,
    nth_error t n = Some r ->
    exists r', nth_error t' n = Some r'
               /\ Row.id r' = Row.id r
               /\ Row.name r' = Row.name r
               /\ Row.email r' = Row.email r
               /\ Row.password_hash r' = Row.password_hash r
               /\ (Row.is_active r = false -> Row.is_active r' = false).

(** ** The transport boundary *)

(** [transport/http/v1/schemas/user.py] *)
Module CreateUserRequest.
Record t : Type := mk
  { name : string;
    email : string;
    password : string }.
End CreateUserRequest.

Module UserResponse.
Record t : Type := mk
  { id : Z;
    name : string;
    email : string;
    is_active : bool }.
End UserResponse.

Inductive json : Type :=
| JInt (n : Z)
| JString (s : string)
| JBool (b : bool).

(** What a route answers: the serialised response model, an
    [HTTPException], or the framework's answer to anything else that goes
    wrong in the handler (an exception no [except] clause takes, a return
    value the response model refuses). *)
Inductive Response : Type :=
| OK (body : list (string * json))
| HTTPException (status_code : Z) (detail : string)
| InternalServerError.

(** The response body: the fields of [UserResponse], in declaration
    order. *)
Definition UserResponse_model_dump (r : UserResponse.t)
  : list (string * json) :=
  [("id"%string, JInt (UserResponse.id r));
   ("name"%string, JString (UserResponse.name r));
   ("email"%string, JString (UserResponse.email r));
   ("is_active"%string, JBool (UserResponse.is_active r))].

Section Transport.

Variable get_password_hash : string -> string.

(** pydantic's [EmailStr]: refuses a malformed address and returns a
    well-formed one normalised.  The validator is a library of its own
    and stays a parameter. *)
Variable EmailStr : string -> option string.

(** [response_model=UserResponse] with [from_attributes = True]: the
    response is built from the attributes of the returned [User] that
    the model declares; [id: int] refuses [None]. *)
Definition UserResponse_model_validate (u : User.t)
  : option UserResponse.t :=
  match User.id u, EmailStr (User.email u) with
  | Some i, Some e =>
      Some (UserResponse.mk i (User.name u) e (User.is_active u))
  | _, _ => None
  end.

Definition respond (status_code : Z) (result : outcome User.t) : Response :=
  match result with
  | Returned user =>
      match UserResponse_model_validate user with
      | Some r => OK (UserResponse_model_dump r)
      | None => InternalServerError
      end
  | Raised (ValueError msg) => HTTPException status_code msg
  | Raised _ => InternalServerError
  end.

(** [transport/http/v1/routes/users.py] *)
Definition create_user (request : CreateUserRequest.t) (d : Database)
  : Response * Database :=
  let '(result, s) :=
    CreateUserUseCase_execute get_password_hash
      (CreateUserRequest.name request) (CreateUserRequest.email request)
      (CreateUserRequest.password request) (SessionLocal d) in
  (respond 400 result, database s).

Definition delete_user (user_id : Z) (d : Database)
  : Response * Database :=
  let '(result, s) := DeleteUserUseCase_execute user_id (SessionLocal d) in
  (respond 404 result, database s).

End Transport.

(** ** A store to run on *)

Definition alice : Row.t :=
  Row.mk 1 "Alice" "alice@x.com" "$2b$12$alice" true.

Definition alice_db : Database := mkDatabase [alice] 2.

(** The same store after Alice was deactivated. *)
Definition inactive_db : Database := mkDatabase [deactivated alice] 2.

(** A table that received a row of key 0 by other means. *)
Definition root : Row.t := Row.mk 0 "Root" "root@x.com" "$2b$12$root" true.

Definition root_db : Database := mkDatabase [root] 1.

Definition bob : User.t := User.mk None "Bob" "bob@x.com" "$2b$12$bob" true.

(** An entity without id whose e-mail Alice already has. *)
Definition eve : User.t := User.mk None "Eve" "alice@x.com" "$2b$12$eve" true.

(** An entity for the stored id 1 that differs from the row in every other
    field. *)
Definition bob_as_1 : User.t :=
  User.mk (Some 1) "Bob" "bob@x.com" "$2b$12$bob" false.

(** An entity whose id is 0. *)
Definition admin_as_0 : User.t :=
  User.mk (Some 0) "Admin" "admin@x.com" "$2b$12$admin" false.

Definition delete_alice : outcome User.t * Session :=
  DeleteUserUseCase_execute 1 (SessionLocal alice_db).

Definition delete_alice_again : outcome User.t * Session :=
  DeleteUserUseCase_execute 1 (SessionLocal (database (snd delete_alice))).

Definition save_bob_as_1 : outcome User.t * Session :=
  SQLAlchemyUserRepository.save bob_as_1 (SessionLocal alice_db).

Definition save_admin_as_0 : outcome User.t * Session :=
  SQLAlchemyUserRepository.save admin_as_0 (SessionLocal root_db).

Definition sample_ops : list operation :=
  [Create "Bob" "bob@x.com" "pw456"; Create "Alice" "alice@x.com" "pw123";
   Delete 1; Delete 2; Delete 999].

(** The statement that a saved entity is found again under the id [save]
    returned. *)
Definition round_trips (d : Database) (u : User.t) : Prop :=
  exists u' k s s',
    SQLAlchemyUserRepository.save u (SessionLocal d) = (Returned u', s)
    /\ User.id u' = Some k
    /\ SQLAlchemyUserRepository.find_by_id k s = (Returned (Some u'), s').

(** The table [save] leaves for an entity with a truthy id: every column
    comes from the entity. *)
Definition overwrite (u : User.t) (pk : Z) (tbl : list Row.t) : list Row.t :=
  map (fun r => if Row.has_id pk r
                then Row.mk pk (User.name u) (User.email u)
                            (User.password_hash u) (User.is_active u)
                else r) tbl.

(** ** Rows as entities *)

(** The entity [find_by_id] and [find_by_email] build from a row. *)
Definition User_of_row (r : Row.t) : User.t :=
  User.mk (Some (Row.id r)) (Row.name r) (Row.email r) (Row.password_hash r)
          (Row.is_active r).

(** The row [save] writes under key [pk] for an entity. *)
Definition Row_of_user (pk : Z) (u : User.t) : Row.t :=
  Row.mk pk (User.name u) (User.email u) (User.password_hash u)
         (User.is_active u).

(** The body of a successful response. *)
Definition user_body (id : Z) (name email : string) (is_active : bool)
  : list (string * json) :=
  UserResponse_model_dump (UserResponse.mk id name email is_active).

(** A validator that accepts every address as it is. *)
Definition accept_all (e : string) : option string := Some e.

(** An entity for a key the table does not have. *)
Definition carol_as_7 : User.t :=
  User.mk (Some 7) "Carol" "carol@x.com" "$2b$12$carol" true.

(** A store with two users. *)
Definition bob_row : Row.t := Row.mk 2 "Bob" "bob@x.com" "$2b$12$bob" true.

Definition two_db : Database := mkDatabase [alice; bob_row] 3.

(** A table whose texts hold no NUL. *)
Definition clean (tbl : list Row.t) : Prop :=
  Forall (fun r => has_nul (Row.name r) = false
                   /\ has_nul (Row.email r) = false
                   /\ has_nul (Row.password_hash r) = false) tbl.

(** ** Inputs the driver refuses *)

(** A name of two characters, the second of them NUL. *)
Definition nul_name : string :=
  String "A"%char (String Ascii.zero EmptyString).


(** Create with that name, for an e-mail the store does not have. *)
Definition create_nul_name : outcome User.t * Database :=
  perform (fun p => p) (Create nul_name "bob@x.com" "pw456") alice_db.

(** A hasher whose result holds NUL, and one whose result does not. *)
Definition nul_hasher (password : string) : string := nul_name.

Definition plain_hasher (password : string) : string := password.

(** An entity for a key outside the range of the column. *)
Definition carol_as_2_pow_63 : User.t :=
  User.mk (Some 9223372036854775808) "Carol" "carol@x.com" "$2b$12$carol"
          true.

(** ** Proof support *)

(** Expose the session operations of a monadic program so that it runs on
    a session whose lists are explicit. *)
Ltac run_session :=
  repeat progress
    (cbv delta [SQLAlchemyUserRepository.save
                SQLAlchemyUserRepository.find_by_id
                SQLAlchemyUserRepository.find_by_email
                bind ret raise query_first UserModel_init setattr_id getattrs
                Session_add Session_merge Session_commit Session_refresh
                with_objects deref lookup_identity persistent_key SessionLocal
                INSERT User_of_instance Row.of_instance Row.to_instance
                UserModel.set_id satisfies refused_parameter];
     cbn -[Z.add UPDATE truthy refused_text in_range has_nul]).

(** ** Facts about lists and filters *)

Lemma has_id_true (k : Z) (r : Row.t) : Row.has_id k r = true <-> Row.id r = k.
Proof. unfold Row.has_id. apply Z.eqb_eq. Qed.

Lemma has_email_true (e : string) (r : Row.t) :
  Row.has_email e r = true <-> Row.email r = e.
Proof. unfold Row.has_email. apply String.eqb_eq. Qed.

Lemma find_absent {A} (p : A -> bool) (l : list A) :
  (forall x, In x l -> p x = false) -> find p l = None.
Proof.
  induction l as [|a l IH]; intros H; simpl; [reflexivity|].
  rewrite (H a (or_introl eq_refl)). apply IH. intros x Hx. apply H. now right.
Qed.

Lemma find_present {A} (p : A -> bool) (l : list A) (x : A) :
  In x l -> p x = true -> exists y, find p l = Some y /\ In y l /\ p y = true.
Proof.
  induction l as [|a l IH]; intros Hin Hp; [contradiction|]. simpl.
  destruct (p a) eqn:Ha.
  - exists a. repeat split; auto; now left.
  - destruct Hin as [->|Hin]; [congruence|].
    destruct (IH Hin Hp) as (y & Hy & Hiny & Hpy).
    exists y. repeat split; auto; now right.
Qed.

Lemma find_app_last {A} (p : A -> bool) (l : list A) (x : A) :
  find p l = None -> p x = true -> find p (l ++ [x]) = Some x.
Proof.
  induction l as [|a l IH]; simpl; intros Hl Hx.
  - now rewrite Hx.
  - destruct (p a); [discriminate|]. now apply IH.
Qed.

Lemma existsb_absent {A} (p : A -> bool) (l : list A) :
  (forall x, In x l -> p x = false) -> existsb p l = false.
Proof.
  induction l as [|a l IH]; intros H; simpl; [reflexivity|].
  rewrite (H a (or_introl eq_refl)). apply IH. intros x Hx. apply H. now right.
Qed.

Lemma NoDup_map_inj {A B} (f : A -> B) (l : list A) (x y : A) :
  NoDup (map f l) -> In x l -> In y l -> f x = f y -> x = y.
Proof.
  induction l as [|a l IH]; simpl; intros Hnd Hx Hy Hxy; [contradiction|].
  inversion Hnd as [|? ? Hnotin Hnd']; subst.
  destruct Hx as [Hx|Hx], Hy as [Hy|Hy]; subst.
  - reflexivity.
  - exfalso. apply Hnotin. rewrite Hxy. now apply in_map.
  - exfalso. apply Hnotin. rewrite <- Hxy. now apply in_map.
  - now apply IH.
Qed.

(** ** What each repository call does on a fresh session *)

Lemma wf_seq_fresh (d : Database) (r : Row.t) :
  wf d -> In r (users d) -> Row.has_id (users_id_seq d) r = false.
Proof.
  intros Hwf Hin. destruct Hwf as [_ _ Hseq _].
  rewrite Forall_forall in Hseq. specialize (Hseq r Hin).
  unfold Row.has_id. apply Z.eqb_neq. lia.
Qed.

Lemma wf_seq_in_range (d : Database) :
  wf d -> users_id_seq d <= id_max -> in_range (users_id_seq d) = true.
Proof.
  intros Hwf Hmax. pose proof (wf_seq_pos d Hwf) as Hpos.
  unfold in_range, id_min. apply andb_true_iff. split; apply Z.leb_le; lia.
Qed.

Lemma refused_text_false (name email password_hash : string) :
  has_nul name = false -> has_nul email = false ->
  has_nul password_hash = false ->
  refused_text name email password_hash = false.
Proof. intros Hn He Hp. unfold refused_text. now rewrite Hn, He, Hp. Qed.

Lemma refused_text_false_inv (name email password_hash : string) :
  refused_text name email password_hash = false ->
  has_nul name = false /\ has_nul email = false
  /\ has_nul password_hash = false.
Proof.
  unfold refused_text. intros H.
  apply orb_false_iff in H. destruct H as [H Hp].
  apply orb_false_iff in H. tauto.
Qed.

Lemma database_eta (d : Database) :
  mkDatabase (users d) (users_id_seq d) = d.
Proof. now destruct d. Qed.

Lemma has_email_false (e : string) (r : Row.t) :
  Row.email r <> e -> Row.has_email e r = false.
Proof. intros H. unfold Row.has_email. now apply String.eqb_neq. Qed.

Lemma find_email_unseen (d : Database) (email : string) :
  (forall r, In r (users d) -> Row.email r <> email) ->
  find (Row.has_email email) (users d) = None.
Proof.
  intros Hnew. apply find_absent. intros r Hr. apply has_email_false. auto.
Qed.

Lemma find_by_email_unseen (d : Database) (email : string) :
  has_nul email = false ->
  (forall r, In r (users d) -> Row.email r <> email) ->
  SQLAlchemyUserRepository.find_by_email email (SessionLocal d)
  = (Returned None, SessionLocal d).
Proof.
  intros Hnul Hnew. run_session.
  rewrite (find_email_unseen d email Hnew), Hnul. reflexivity.
Qed.

(** A parameter with NUL is refused by the driver. *)
Lemma find_by_email_refused (d : Database) (email : string) :
  has_nul email = true ->
  (forall r, In r (users d) -> Row.email r <> email) ->
  SQLAlchemyUserRepository.find_by_email email (SessionLocal d)
  = (Raised (ValueError nul_message), SessionLocal d).
Proof.
  intros Hnul Hnew. run_session.
  rewrite (find_email_unseen d email Hnew), Hnul. reflexivity.
Qed.

Lemma find_by_email_seen (d : Database) (email : string) (r : Row.t) :
  In r (users d) -> Row.email r = email ->
  exists u s,
    SQLAlchemyUserRepository.find_by_email email (SessionLocal d)
    = (Returned (Some u), s) /\ database s = d.
Proof.
  intros Hin He.
  destruct (find_present (Row.has_email email) (users d) r Hin
              (proj2 (has_email_true email r) He)) as (y & Hy & _ & _).
  run_session. rewrite Hy. run_session. do 2 eexists. split; reflexivity.
Qed.

Lemma find_by_id_absent (d : Database) (user_id : Z) :
  (forall r, In r (users d) -> Row.id r <> user_id) ->
  SQLAlchemyUserRepository.find_by_id user_id (SessionLocal d)
  = (Returned None, SessionLocal d).
Proof.
  intros Hnew. run_session. rewrite find_absent; [reflexivity|].
  intros r Hr. unfold Row.has_id. apply Z.eqb_neq. auto.
Qed.

(** The insert path of [save]: no truthy id, texts the driver accepts, an
    e-mail the table does not have, a sequence ahead of the keys and
    within the range of the column. *)
Lemma save_insert (d : Database) (u : User.t) :
  wf d -> users_id_seq d <= id_max ->
  truthy (User.id u) = false ->
  has_nul (User.name u) = false -> has_nul (User.email u) = false ->
  has_nul (User.password_hash u) = false ->
  (forall r, In r (users d) -> Row.email r <> User.email u) ->
  let pk := users_id_seq d in
  let row := Row.mk pk (User.name u) (User.email u) (User.password_hash u)
                    (User.is_active u) in
  SQLAlchemyUserRepository.save u (SessionLocal d)
  = (Returned (User.mk (Some pk) (User.name u) (User.email u)
                       (User.password_hash u) (User.is_active u)),
     mkSession [Row.to_instance row] [] [(pk, 0%nat)]
               (mkDatabase (users d ++ [row]) (pk + 1))).
Proof.
  intros Hwf Hmax Hid Hn He Hp Hnew pk row.
  assert (Hex : existsb (fun r => Row.has_id pk r
                                  || Row.has_email (User.email u) r)
                        (users d) = false).
  { apply existsb_absent. intros r Hr. unfold pk.
    rewrite (wf_seq_fresh d r Hwf Hr), has_email_false; auto. }
  assert (Hfind : find (Row.has_id pk) (users d ++ [row]) = Some row).
  { apply find_app_last.
    - apply find_absent. intros r Hr. now apply wf_seq_fresh.
    - apply has_id_true. reflexivity. }
  unfold SQLAlchemyUserRepository.save. rewrite Hid.
  run_session. rewrite (refused_text_false _ _ _ Hn He Hp).
  fold pk. unfold pk at 1. rewrite (wf_seq_in_range d Hwf Hmax).
  run_session. fold pk. rewrite Hex.
  run_session. unfold row in Hfind. rewrite Hfind. reflexivity.
Qed.

(** The insert path refused by the driver: nothing reaches the server. *)
Lemma save_insert_refused (d : Database) (u : User.t) :
  truthy (User.id u) = false ->
  refused_text (User.name u) (User.email u) (User.password_hash u) = true ->
  exists s,
    SQLAlchemyUserRepository.save u (SessionLocal d)
    = (Raised (ValueError nul_message), s)
    /\ database s = d.
Proof.
  intros Hid Hnul. unfold SQLAlchemyUserRepository.save. rewrite Hid.
  run_session. rewrite Hnul. run_session.
  eexists. split; [reflexivity|]. simpl. apply database_eta.
Qed.

(** The insert path refused for a key the column cannot hold. *)
Lemma save_insert_out_of_range (d : Database) (u : User.t) :
  truthy (User.id u) = false ->
  refused_text (User.name u) (User.email u) (User.password_hash u) = false ->
  in_range (users_id_seq d) = false ->
  exists s,
    SQLAlchemyUserRepository.save u (SessionLocal d)
    = (Raised DataError, s)
    /\ database s = d.
Proof.
  intros Hid Hnul Hrange. unfold SQLAlchemyUserRepository.save. rewrite Hid.
  run_session. rewrite Hnul, Hrange. run_session.
  eexists. split; [reflexivity|]. simpl. apply database_eta.
Qed.

Lemma find_by_id_unique (d : Database) (row : Row.t) :
  wf d -> In row (users d) ->
  find (Row.has_id (Row.id row)) (users d) = Some row.
Proof.
  intros Hwf Hin.
  destruct (find_present (Row.has_id (Row.id row)) (users d) row Hin
              (proj2 (has_id_true _ _) eq_refl)) as (y & Hy & Hiny & Hpy).
  rewrite Hy. f_equal. apply has_id_true in Hpy.
  exact (NoDup_map_inj Row.id (users d) y row (wf_ids d Hwf) Hiny Hin Hpy).
Qed.

Lemma wf_id_truthy (d : Database) (row : Row.t) :
  wf d -> In row (users d) -> truthy (Some (Row.id row)) = true.
Proof.
  intros Hwf Hin. destruct Hwf as [_ _ Hseq _].
  rewrite Forall_forall in Hseq. specialize (Hseq row Hin).
  simpl. apply negb_true_iff, Z.eqb_neq. lia.
Qed.

Lemma changed_same (value : string) : changed value value = [].
Proof. unfold changed. now rewrite String.eqb_refl. Qed.

(** The texts an UPDATE sets are among the texts of the instance. *)
Lemma UPDATE_text_accepted (pk : Z) (o : UserModel.t) (tbl : list Row.t) :
  refused_text (UserModel.name o) (UserModel.email o)
               (UserModel.password_hash o) = false ->
  existsb has_nul (UPDATE_text pk o tbl) = false.
Proof.
  intros H. apply refused_text_false_inv in H. destruct H as (Hn & He & Hp).
  unfold UPDATE_text. destruct (find (Row.has_id pk) tbl) as [row|];
    [|reflexivity].
  unfold changed.
  destruct (String.eqb (UserModel.name o) (Row.name row));
    destruct (String.eqb (UserModel.email o) (Row.email row));
    destruct (String.eqb (UserModel.password_hash o) (Row.password_hash row));
    simpl; rewrite ?Hn, ?He, ?Hp; reflexivity.
Qed.

Lemma UPDATE_deactivated (d : Database) (row : Row.t) :
  wf d -> In row (users d) ->
  UPDATE (Row.id row) (UserModel.mk (Some (Row.id row)) (Row.name row)
                         (Row.email row) (Row.password_hash row) false)
         (users d)
  = inr (deactivate (Row.id row) (users d)).
Proof.
  intros Hwf Hin. unfold UPDATE, UPDATE_text.
  rewrite (find_by_id_unique d row Hwf Hin).
  cbn [UserModel.name UserModel.email UserModel.password_hash].
  rewrite !changed_same. cbn [app existsb].
  rewrite existsb_absent.
  - f_equal. unfold deactivate. apply map_ext_in. intros r Hr.
    destruct (Row.has_id (Row.id row) r) eqn:Hid; [|reflexivity].
    apply has_id_true in Hid.
    rewrite (NoDup_map_inj Row.id (users d) r row (wf_ids d Hwf) Hr Hin Hid).
    reflexivity.
  - intros r Hr. destruct (Row.has_email (Row.email row) r) eqn:He.
    + apply has_email_true in He.
      rewrite (NoDup_map_inj Row.email (users d) r row (wf_emails d Hwf)
                 Hr Hin He).
      unfold Row.has_id. now rewrite Z.eqb_refl.
    + apply andb_false_r.
Qed.

(** [Delete] on a stored id: the row is deactivated and committed, and then
    [save] raises, because the instance it refreshes is the one it built,
    which [merge] left outside the session. *)
Lemma delete_existing (d : Database) (row : Row.t) :
  wf d -> In row (users d) ->
  exists s,
    DeleteUserUseCase_execute (Row.id row) (SessionLocal d)
    = (Raised InvalidRequestError, s)
    /\ database s
       = mkDatabase (deactivate (Row.id row) (users d)) (users_id_seq d).
Proof.
  intros Hwf Hin.
  pose proof (find_by_id_unique d row Hwf Hin) as Hfind.
  pose proof (wf_id_truthy d row Hwf Hin) as Htruthy.
  pose proof (UPDATE_deactivated d row Hwf Hin) as Hupd.
  unfold DeleteUserUseCase_execute.
  run_session. rewrite Hfind. run_session.
  unfold User.set_is_active. cbn [User.id User.name User.email
    User.password_hash User.is_active]. rewrite Htruthy.
  run_session. rewrite Z.eqb_refl. run_session. rewrite Hupd.
  run_session. eexists. split; reflexivity.
Qed.

Lemma delete_absent (d : Database) (user_id : Z) :
  (forall r, In r (users d) -> Row.id r <> user_id) ->
  DeleteUserUseCase_execute user_id (SessionLocal d)
  = (Raised (ValueError "User not found"), SessionLocal d).
Proof.
  intros Habs. unfold DeleteUserUseCase_execute, bind.
  rewrite find_by_id_absent by assumption. reflexivity.
Qed.

(** ** What each use case does to the store *)

Section Runs.

Variable get_password_hash : string -> string.

Lemma create_unseen (d : Database) (name email password : string) :
  wf d -> users_id_seq d <= id_max ->
  has_nul name = false -> has_nul email = false ->
  has_nul (get_password_hash password) = false ->
  (forall r, In r (users d) -> Row.email r <> email) ->
  let pk := users_id_seq d in
  let row := Row.mk pk name email (get_password_hash password) true in
  CreateUserUseCase_execute get_password_hash name email password
                            (SessionLocal d)
  = (Returned (User.mk (Some pk) name email (get_password_hash password)
                       true),
     mkSession [Row.to_instance row] [] [(pk, 0%nat)]
               (mkDatabase (users d ++ [row]) (pk + 1))).
Proof.
  intros Hwf Hmax Hn He Hp Hnew pk row. unfold CreateUserUseCase_execute.
  unfold bind at 1. rewrite find_by_email_unseen by assumption.
  exact (save_insert d (User.mk None name email
                          (get_password_hash password) true)
                     Hwf Hmax eq_refl Hn He Hp Hnew).
Qed.

Lemma create_seen (d : Database) (name email password : string)
      (r : Row.t) :
  In r (users d) -> Row.email r = email ->
  exists s,
    CreateUserUseCase_execute get_password_hash name email password
                              (SessionLocal d)
    = (Raised (ValueError "Email already registered"), s)
    /\ database s = d.
Proof.
  intros Hin He.
  destruct (find_by_email_seen d email r Hin He) as (u & s & Hrun & Hdb).
  exists s. split; [|exact Hdb].
  unfold CreateUserUseCase_execute, bind. rewrite Hrun. reflexivity.
Qed.

(** Create with a text that holds NUL, in the name, the e-mail or the
    password hash: the driver's [ValueError], and nothing stored. *)
Lemma create_refused (d : Database) (name email password : string) :
  (forall r, In r (users d) -> Row.email r <> email) ->
  refused_text name email (get_password_hash password) = true ->
  exists s,
    CreateUserUseCase_execute get_password_hash name email password
                              (SessionLocal d)
    = (Raised (ValueError nul_message), s)
    /\ database s = d.
Proof.
  intros Hnew Hnul. unfold CreateUserUseCase_execute.
  destruct (has_nul email) eqn:He.
  - exists (SessionLocal d). split; [|reflexivity].
    unfold bind. rewrite find_by_email_refused by assumption. reflexivity.
  - unfold bind at 1. rewrite find_by_email_unseen by assumption.
    exact (save_insert_refused d (User.mk None name email
                                    (get_password_hash password) true)
                               eq_refl Hnul).
Qed.

(** Create when the sequence has left the range of the key column. *)
Lemma create_out_of_range (d : Database) (name email password : string) :
  (forall r, In r (users d) -> Row.email r <> email) ->
  refused_text name email (get_password_hash password) = false ->
  in_range (users_id_seq d) = false ->
  exists s,
    CreateUserUseCase_execute get_password_hash name email password
                              (SessionLocal d)
    = (Raised DataError, s)
    /\ database s = d.
Proof.
  intros Hnew Hnul Hrange. unfold CreateUserUseCase_execute.
  destruct (refused_text_false_inv _ _ _ Hnul) as (_ & He & _).
  unfold bind at 1. rewrite find_by_email_unseen by assumption.
  exact (save_insert_out_of_range d (User.mk None name email
                                       (get_password_hash password) true)
                                  eq_refl Hnul Hrange).
Qed.

(** Either a row has the e-mail or none has. *)
Lemma email_seen_or_unseen (d : Database) (email : string) :
  (exists r, In r (users d) /\ Row.email r = email)
  \/ (forall r, In r (users d) -> Row.email r <> email).
Proof.
  destruct (find (Row.has_email email) (users d)) as [r|] eqn:Hfind.
  - left. exists r. apply find_some in Hfind. destruct Hfind as [Hin Hp].
    split; [exact Hin|]. now apply has_email_true.
  - right. intros r Hr He.
    pose proof (find_none _ _ Hfind r Hr) as Hp.
    apply (proj2 (has_email_true email r)) in He. congruence.
Qed.

Lemma id_stored_or_absent (d : Database) (user_id : Z) :
  (exists r, In r (users d) /\ Row.id r = user_id)
  \/ (forall r, In r (users d) -> Row.id r <> user_id).
Proof.
  destruct (find (Row.has_id user_id) (users d)) as [r|] eqn:Hfind.
  - left. exists r. apply find_some in Hfind. destruct Hfind as [Hin Hp].
    split; [exact Hin|]. now apply has_id_true.
  - right. intros r Hr He.
    pose proof (find_none _ _ Hfind r Hr) as Hp.
    apply (proj2 (has_id_true user_id r)) in He. congruence.
Qed.

(** What Create leaves in a store that satisfies [wf]: the store as it
    was, or one more row for an unseen e-mail and accepted texts. *)
Lemma create_store (d : Database) (name email password : string) :
  wf d ->
  snd (perform get_password_hash (Create name email password) d) = d
  \/ ((forall r, In r (users d) -> Row.email r <> email)
      /\ refused_text name email (get_password_hash password) = false
      /\ snd (perform get_password_hash (Create name email password) d)
         = mkDatabase
             (users d ++ [Row.mk (users_id_seq d) name email
                                 (get_password_hash password) true])
             (users_id_seq d + 1)).
Proof.
  intros Hwf. unfold perform.
  destruct (email_seen_or_unseen d email) as [(r & Hin & He)|Hnew].
  - left. destruct (create_seen d name email password r Hin He)
      as (s & Hrun & Hdb).
    rewrite Hrun. exact Hdb.
  - destruct (refused_text name email (get_password_hash password))
      eqn:Hnul.
    + left. destruct (create_refused d name email password Hnew Hnul)
        as (s & Hrun & Hdb).
      rewrite Hrun. exact Hdb.
    + destruct (in_range (users_id_seq d)) eqn:Hrange.
      * right. split; [exact Hnew|]. split; [reflexivity|].
        destruct (refused_text_false_inv _ _ _ Hnul) as (Hn & He & Hp).
        rewrite create_unseen; auto.
        unfold in_range in Hrange. apply andb_true_iff in Hrange.
        destruct Hrange as [_ Hmax]. now apply Z.leb_le.
      * left. destruct (create_out_of_range d name email password Hnew Hnul
                          Hrange) as (s & Hrun & Hdb).
        rewrite Hrun. exact Hdb.
Qed.

End Runs.

(** ** The invariant of the store *)

Lemma map_id_deactivate (pk : Z) (tbl : list Row.t) :
  map Row.id (deactivate pk tbl) = map Row.id tbl.
Proof.
  unfold deactivate. rewrite map_map. apply map_ext. intros r.
  now destruct (Row.has_id pk r).
Qed.

Lemma map_email_deactivate (pk : Z) (tbl : list Row.t) :
  map Row.email (deactivate pk tbl) = map Row.email tbl.
Proof.
  unfold deactivate. rewrite map_map. apply map_ext. intros r.
  now destruct (Row.has_id pk r).
Qed.

Lemma wf_deactivate (d : Database) (pk : Z) :
  wf d -> wf (mkDatabase (deactivate pk (users d)) (users_id_seq d)).
Proof.
  intros [Hids Hemails Hseq Hpos]. constructor; simpl.
  - now rewrite map_id_deactivate.
  - now rewrite map_email_deactivate.
  - unfold deactivate. rewrite Forall_map. revert Hseq. apply Forall_impl.
    intros r Hr. now destruct (Row.has_id pk r).
  - exact Hpos.
Qed.

Lemma NoDup_snoc {A} (l : list A) (x : A) :
  NoDup l -> ~ In x l -> NoDup (l ++ [x]).
Proof.
  induction l as [|a l IH]; simpl; intros Hnd Hx.
  - constructor; [auto|constructor].
  - inversion Hnd as [|? ? Ha Hnd']; subst. constructor.
    + rewrite in_app_iff. simpl. intuition congruence.
    + apply IH; auto.
Qed.

Lemma wf_insert (d : Database) (name email password_hash : string)
      (is_active : bool) :
  wf d -> (forall r, In r (users d) -> Row.email r <> email) ->
  wf (mkDatabase
        (users d ++ [Row.mk (users_id_seq d) name email password_hash
                            is_active])
        (users_id_seq d + 1)).
Proof.
  intros [Hids Hemails Hseq Hpos] Hnew. rewrite Forall_forall in Hseq.
  constructor; simpl.
  - rewrite map_app. simpl. apply NoDup_snoc; [exact Hids|].
    rewrite in_map_iff. intros (r & Hid & Hr). specialize (Hseq r Hr). lia.
  - rewrite map_app. simpl. apply NoDup_snoc; [exact Hemails|].
    rewrite in_map_iff. intros (r & He & Hr). exact (Hnew r Hr He).
  - rewrite Forall_forall. intros r Hr. rewrite in_app_iff in Hr. simpl in Hr.
    destruct Hr as [Hr|[<-|[]]].
    + specialize (Hseq r Hr). lia.
    + simpl. lia.
  - lia.
Qed.

Lemma wf_empty : wf empty_database.
Proof. constructor; simpl; [constructor|constructor|constructor|lia]. Qed.

Section Invariant.

Variable get_password_hash : string -> string.

Lemma perform_wf (op : operation) (d : Database) :
  wf d -> wf (snd (perform get_password_hash op d)).
Proof.
  intros Hwf. destruct op as [name email password|user_id].
  - destruct (create_store get_password_hash d name email password Hwf)
      as [->|(Hnew & _ & ->)]; [exact Hwf|].
    now apply wf_insert.
  - unfold perform.
    destruct (id_stored_or_absent d user_id) as [(r & Hin & <-)|Habs].
    + destruct (delete_existing d r Hwf Hin) as (s & Hrun & Hdb).
      rewrite Hrun. simpl. rewrite Hdb. now apply wf_deactivate.
    + rewrite delete_absent by assumption. exact Hwf.
Qed.

Lemma perform_all_wf (ops : list operation) (d : Database) :
  wf d -> wf (perform_all get_password_hash ops d).
Proof.
  revert d. induction ops as [|op ops IH]; intros d Hwf; simpl.
  - exact Hwf.
  - apply IH. now apply perform_wf.
Qed.

(** Every store the use cases can build from the empty one satisfies the
    invariant. *)
Lemma reachable_wf (ops : list operation) :
  wf (perform_all get_password_hash ops empty_database).
Proof. apply perform_all_wf, wf_empty. Qed.

End Invariant.


(** ** Rows are kept, and stay inactive *)

Lemma kept_refl (t : list Row.t) : kept t t.
Proof. intros n r Hn. exists r. auto 7. Qed.

Lemma kept_trans (t1 t2 t3 : list Row.t) :
  kept t1 t2 -> kept t2 t3 -> kept t1 t3.
Proof.
  intros H12 H23 n r Hn.
  destruct (H12 n r Hn) as (r2 & Hn2 & Hid2 & Hname2 & Hem2 & Hpw2 & Hact2).
  destruct (H23 n r2 Hn2) as (r3 & Hn3 & Hid3 & Hname3 & Hem3 & Hpw3 & Hact3).
  exists r3. repeat split; auto; congruence.
Qed.

Lemma kept_app (t ext : list Row.t) : kept t (t ++ ext).
Proof.
  intros n r Hn. exists r. repeat split; auto.
  rewrite nth_error_app1; [exact Hn|].
  apply nth_error_Some. congruence.
Qed.

Lemma kept_deactivate (pk : Z) (t : list Row.t) : kept t (deactivate pk t).
Proof.
  intros n r Hn.
  exists (if Row.has_id pk r then deactivated r else r). split.
  - unfold deactivate.
    exact (map_nth_error
             (fun r => if Row.has_id pk r then deactivated r else r) n t Hn).
  - destruct (Row.has_id pk r); simpl; auto 6.
Qed.

Section Monotone.

Variable get_password_hash : string -> string.

Lemma perform_kept (op : operation) (d : Database) :
  wf d -> kept (users d) (users (snd (perform get_password_hash op d))).
Proof.
  intros Hwf. destruct op as [name email password|user_id].
  - destruct (create_store get_password_hash d name email password Hwf)
      as [->|(_ & _ & ->)]; [apply kept_refl|apply kept_app].
  - unfold perform.
    destruct (id_stored_or_absent d user_id) as [(r & Hin & <-)|Habs].
    + destruct (delete_existing d r Hwf Hin) as (s & Hrun & Hdb).
      rewrite Hrun. simpl. rewrite Hdb. apply kept_deactivate.
    + rewrite delete_absent by assumption. apply kept_refl.
Qed.

Lemma perform_all_kept (ops : list operation) (d : Database) :
  wf d -> kept (users d) (users (perform_all get_password_hash ops d)).
Proof.
  revert d. induction ops as [|op ops IH]; intros d Hwf; simpl.
  - apply kept_refl.
  - eapply kept_trans; [now apply perform_kept|].
    apply IH. now apply perform_wf.
Qed.

End Monotone.

(** ** The update path of [save] *)

Lemma save_update (d : Database) (row : Row.t) (u : User.t) :
  wf d -> In row (users d) -> User.id u = Some (Row.id row) ->
  refused_text (User.name u) (User.email u) (User.password_hash u) = false ->
  (forall r, In r (users d) -> Row.email r = User.email u -> r = row) ->
  exists s,
    SQLAlchemyUserRepository.save u (SessionLocal d)
    = (Raised InvalidRequestError, s)
    /\ database s
       = mkDatabase (overwrite u (Row.id row) (users d)) (users_id_seq d).
Proof.
  intros Hwf Hin Hid Hnul Hemail.
  pose proof (find_by_id_unique d row Hwf Hin) as Hfind.
  pose proof (wf_id_truthy d row Hwf Hin) as Htruthy.
  assert (Hex : existsb (fun r => negb (Row.has_id (Row.id row) r)
                                  && Row.has_email (User.email u) r)
                        (users d) = false).
  { apply existsb_absent. intros r Hr.
    destruct (Row.has_email (User.email u) r) eqn:He.
    - apply has_email_true in He. rewrite (Hemail r Hr He).
      unfold Row.has_id. now rewrite Z.eqb_refl.
    - apply andb_false_r. }
  unfold SQLAlchemyUserRepository.save. rewrite Hid, Htruthy.
  run_session. rewrite Hfind. run_session.
  unfold UPDATE. rewrite UPDATE_text_accepted by exact Hnul.
  cbn [UserModel.email]. rewrite Hex.
  run_session. eexists. split; reflexivity.
Qed.

(** For the entity Delete saves, the row as loaded with [is_active] set to
    false, writing every column is deactivating the row. *)
Lemma overwrite_loaded_is_deactivate (d : Database) (row : Row.t) :
  wf d -> In row (users d) ->
  overwrite (User.set_is_active false (User_of_row row)) (Row.id row)
            (users d)
  = deactivate (Row.id row) (users d).
Proof.
  intros Hwf Hin. unfold overwrite, deactivate. apply map_ext_in.
  intros r Hr. destruct (Row.has_id (Row.id row) r) eqn:Hid; [|reflexivity].
  apply has_id_true in Hid.
  rewrite (NoDup_map_inj Row.id (users d) r row (wf_ids d Hwf) Hr Hin Hid).
  reflexivity.
Qed.

(** ** The scenario of the specification *)

(** Create, Create again with the same e-mail, Delete, Delete of an
    unknown id, from the empty store. *)
Example scenario :
  let h := fun p : string => p in
  let step1 := perform h (Create "Alice" "alice@x.com" "pw123")
                       empty_database in
  let step2 := perform h (Create "Alice" "alice@x.com" "pw123") (snd step1) in
  let step3 := perform h (Delete 1) (snd step2) in
  let step4 := perform h (Delete 999) (snd step3) in
  fst step1 = Returned (User.mk (Some 1) "Alice" "alice@x.com" "pw123" true)
  /\ fst step2 = Raised (ValueError "Email already registered")
  /\ snd step2 = snd step1
  /\ fst step3 = Raised InvalidRequestError
  /\ users (snd step3) = [Row.mk 1 "Alice" "alice@x.com" "pw123" false]
  /\ fst step4 = Raised (ValueError "User not found")
  /\ snd step4 = snd step3.
Proof. repeat split; reflexivity. Qed.

Section CreateTwice.

Variable get_password_hash : string -> string.

(** After a Create that succeeded, a second Create with the same e-mail is
    rejected and persists no second row. *)
Lemma create_twice_second_rejected (d : Database)
      (name email password name' password' : string) :
  wf d -> users_id_seq d <= id_max ->
  has_nul name = false -> has_nul email = false ->
  has_nul (get_password_hash password) = false ->
  (forall r, In r (users d) -> Row.email r <> email) ->
  let d1 := snd (perform get_password_hash (Create name email password) d) in
  perform get_password_hash (Create name' email password') d1
  = (Raised (ValueError "Email already registered"), d1).
Proof.
  intros Hwf Hmax Hn He Hp Hnew d1.
  assert (Hd1 : users d1
                = users d ++ [Row.mk (users_id_seq d) name email
                                     (get_password_hash password) true]).
  { unfold d1, perform. rewrite create_unseen by assumption. reflexivity. }
  destruct (create_seen get_password_hash d1 name' email password'
              (Row.mk (users_id_seq d) name email
                      (get_password_hash password) true))
    as (s & Hrun & Hdb).
  - rewrite Hd1, in_app_iff. right. left. reflexivity.
  - reflexivity.
  - unfold perform at 1. rewrite Hrun, Hdb. reflexivity.
Qed.

End CreateTwice.

Section DeleteTwice.

Variable get_password_hash : string -> string.

Lemma deactivate_idempotent (pk : Z) (tbl : list Row.t) :
  deactivate pk (deactivate pk tbl) = deactivate pk tbl.
Proof.
  unfold deactivate. rewrite map_map. apply map_ext. intros r.
  destruct (Row.has_id pk r) eqn:Hid; [|now rewrite Hid].
  unfold Row.has_id in *. simpl. now rewrite Hid.
Qed.

(** Delete on a stored id, twice: each call deactivates and raises, and
    the second leaves the store as the first left it. *)
Lemma delete_twice (d : Database) (row : Row.t) :
  wf d -> In row (users d) ->
  let d1 := mkDatabase (deactivate (Row.id row) (users d)) (users_id_seq d) in
  perform get_password_hash (Delete (Row.id row)) d
  = (Raised InvalidRequestError, d1)
  /\ perform get_password_hash (Delete (Row.id row)) d1
     = (Raised InvalidRequestError, d1).
Proof.
  intros Hwf Hin d1. split.
  - destruct (delete_existing d row Hwf Hin) as (s & Hrun & Hdb).
    unfold perform. rewrite Hrun, Hdb. reflexivity.
  - assert (Hwf1 : wf d1) by now apply wf_deactivate.
    assert (Hin1 : In (deactivated row) (users d1)).
    { unfold d1, deactivate. simpl. apply in_map_iff. exists row.
      split; [|exact Hin]. unfold Row.has_id. now rewrite Z.eqb_refl. }
    destruct (delete_existing d1 (deactivated row) Hwf1 Hin1)
      as (s & Hrun & Hdb).
    simpl in Hrun, Hdb. rewrite deactivate_idempotent in Hdb.
    unfold perform. rewrite Hrun, Hdb. reflexivity.
Qed.

End DeleteTwice.

Lemma unique_check_find (pk : Z) (e : string) (tbl : list Row.t) :
  existsb (fun r => Row.has_id pk r || Row.has_email e r) tbl = false ->
  find (Row.has_id pk) tbl = None.
Proof.
  induction tbl as [|r tbl IH]; simpl; intros H; [reflexivity|].
  apply orb_false_iff in H. destruct H as [Hr Htbl].
  apply orb_false_iff in Hr. destruct Hr as [-> _]. auto.
Qed.

(** ** When [save] returns *)

(** On a fresh session [save] returns only through the insert branch, with
    the row it appended under the next value of the sequence. *)
Lemma save_returned (d : Database) (u u' : User.t) (s : Session) :
  SQLAlchemyUserRepository.save u (SessionLocal d) = (Returned u', s) ->
  let pk := users_id_seq d in
  let row := Row_of_user pk u in
  find (Row.has_id pk) (users d ++ [row]) = Some row
  /\ u' = User.mk (Some pk) (User.name u) (User.email u)
                  (User.password_hash u) (User.is_active u)
  /\ s = mkSession [Row.to_instance row] [] [(pk, 0%nat)]
                   (mkDatabase (users d ++ [row]) (pk + 1)).
Proof.
  unfold SQLAlchemyUserRepository.save.
  destruct (truthy (User.id u)) eqn:Htruthy.
  - destruct (User.id u) as [k|]; [|discriminate]. run_session.
    destruct (find (Row.has_id k) (users d)); run_session.
    + destruct (UPDATE _ _ (users d)); run_session; discriminate.
    + destruct (refused_text _ _ _); run_session; [discriminate|].
      destruct (in_range k); run_session; [|discriminate].
      destruct (existsb _ (users d)); run_session; discriminate.
  - run_session.
    destruct (refused_text _ _ _); run_session; [discriminate|].
    destruct (in_range (users_id_seq d)); run_session; [|discriminate].
    destruct (existsb _ (users d)) eqn:Hex; run_session; [discriminate|].
    apply unique_check_find in Hex.
    assert (Hfind : find (Row.has_id (users_id_seq d))
                      (users d ++ [Row_of_user (users_id_seq d) u])
                    = Some (Row_of_user (users_id_seq d) u)).
    { apply find_app_last; [exact Hex|]. apply has_id_true. reflexivity. }
    unfold Row_of_user in *. rewrite Hfind. run_session.
    intros H. injection H as <- <-. repeat split; reflexivity.
Qed.

(** * The claims *)

(** C1, as stated, fails: a name can be non-empty and hold the character
    NUL, and then Create-User raises the driver's [ValueError] and stores
    nothing, although the e-mail is unseen. *)
Lemma create_user_nul_name_counterexample :
  nul_name <> EmptyString
  /\ (forall r, In r (users alice_db) -> Row.email r <> "bob@x.com"%string)
  /\ create_nul_name = (Raised (ValueError nul_message), alice_db).
Proof.
  split; [discriminate|]. split; [|reflexivity].
  intros r [<-|[]]. simpl. discriminate.
Qed.

(** C1, amended.  On a store that satisfies [wf] and whose sequence is
    within the range of the key column, Create-User with an e-mail that no
    stored user has, and with a name, an e-mail and a password hash that
    hold no NUL, succeeds: it returns an entity whose id is present (the
    value the store's sequence assigned), whose [is_active] is true and
    whose name and e-mail are the ones given, and that entity is the row
    appended to the table. *)
Theorem create_user_unseen_email_succeeds :
  forall (get_password_hash : string -> string) (d : Database)
         (name email password : string),
    wf d ->
    users_id_seq d <= id_max ->
    has_nul name = false ->
    has_nul email = false ->
    has_nul (get_password_hash password) = false ->
    (forall r, In r (users d) -> Row.email r <> email) ->
    exists pk u s,
      CreateUserUseCase_execute get_password_hash name email password
                                (SessionLocal d)
      = (Returned u, s)
      /\ User.id u = Some pk
      /\ pk = users_id_seq d
      /\ User.is_active u = true
      /\ User.name u = name
      /\ User.email u = email
      /\ users (database s)
         = users d ++ [Row.mk pk name email (get_password_hash password) true].
Proof.
  intros hash d name email password Hwf Hmax Hn He Hp Hnew.
  eexists _, _, _. split.
  - apply create_unseen; assumption.
  - simpl. repeat split; reflexivity.
Qed.

(** C2.  Create-User with an e-mail that a stored user has raises
    [ValueError("Email already registered")] and leaves the database as it
    was: table and sequence. *)
Theorem create_user_duplicate_email_rejected :
  forall (get_password_hash : string -> string) (d : Database)
         (name email password : string) (r : Row.t),
    In r (users d) ->
    Row.email r = email ->
    exists s,
      CreateUserUseCase_execute get_password_hash name email password
                                (SessionLocal d)
      = (Raised (ValueError "Email already registered"), s)
      /\ database s = d.
Proof.
  intros hash d name email password r Hin He.
  exact (create_seen hash d name email password r Hin He).
Qed.

(** C3.  Delete-User on the stored id 1: the row is deactivated and its
    name, e-mail and password hash are kept, but the call does not return
    the entity: it raises [InvalidRequestError] out of [save], after the
    commit. *)
Theorem delete_user_existing_id_raises :
  fst delete_alice = Raised InvalidRequestError
  /\ users (database (snd delete_alice))
     = [Row.mk 1 "Alice" "alice@x.com" "$2b$12$alice" false].
Proof. split; reflexivity. Qed.

(** C4.  Delete-User on an id that no stored user has raises
    [ValueError("User not found")] and leaves the database as it was. *)
Theorem delete_user_unknown_id_rejected :
  forall (d : Database) (user_id : Z),
    (forall r, In r (users d) -> Row.id r <> user_id) ->
    exists s,
      DeleteUserUseCase_execute user_id (SessionLocal d)
      = (Raised (ValueError "User not found"), s)
      /\ database s = d.
Proof.
  intros d user_id Habs. exists (SessionLocal d). split; [|reflexivity].
  now apply delete_absent.
Qed.

(** C5, as stated, fails: [save] on an entity with id 1 whose other
    fields differ from the stored row overwrites the row in every column
    from the entity (name, e-mail, password hash and [is_active]), not
    only in the field an operation meant to change. *)
Theorem save_with_id_overwrites_whole_row :
  fst save_bob_as_1 = Raised InvalidRequestError
  /\ users (database (snd save_bob_as_1))
     = [Row.mk 1 "Bob" "bob@x.com" "$2b$12$bob" false].
Proof. split; reflexivity. Qed.

(** C5, amended.  On a store that satisfies [wf], [save] on an entity whose
    id is that of a stored row, whose texts hold no NUL and whose e-mail no
    other row has, commits the row with every column taken from the
    entity: name, e-mail, password hash and [is_active].  For the entity
    the Delete use case saves, the row as loaded with [is_active] set to
    false, that is the update of the one field. *)
Theorem save_with_id_writes_every_column :
  forall (d : Database) (row : Row.t) (u : User.t),
    wf d ->
    In row (users d) ->
    User.id u = Some (Row.id row) ->
    has_nul (User.name u) = false ->
    has_nul (User.email u) = false ->
    has_nul (User.password_hash u) = false ->
    (forall r, In r (users d) -> Row.email r = User.email u -> r = row) ->
    users (database (snd (SQLAlchemyUserRepository.save u (SessionLocal d))))
    = overwrite u (Row.id row) (users d)
    /\ overwrite (User.set_is_active false (User_of_row row)) (Row.id row)
                 (users d)
       = deactivate (Row.id row) (users d).
Proof.
  intros d row u Hwf Hin Hid Hn He Hp Hemail. split.
  - destruct (save_update d row u Hwf Hin Hid
                (refused_text_false _ _ _ Hn He Hp) Hemail)
      as (s & Hrun & Hdb).
    rewrite Hrun. simpl. now rewrite Hdb.
  - now apply overwrite_loaded_is_deactivate.
Qed.

(** C6.  Delete-User twice on the stored id 1: both calls raise
    [InvalidRequestError]; the user is inactive after the first and after
    the second. *)
Theorem delete_user_twice_raises_twice :
  fst delete_alice = Raised InvalidRequestError
  /\ fst delete_alice_again = Raised InvalidRequestError
  /\ users (database (snd delete_alice)) = [deactivated alice]
  /\ users (database (snd delete_alice_again)) = [deactivated alice].
Proof. repeat split; reflexivity. Qed.

(** C7, as stated, fails: an entity without id whose e-mail is already
    stored is refused by the unique constraint, so [save] returns no id to
    look up. *)
Lemma save_round_trip_counterexample :
  ~ round_trips alice_db eve.
Proof.
  intros (u' & k & s & s' & Hsave & _). vm_compute in Hsave. discriminate.
Qed.

(** C7, amended.  On every store, whenever [save] returns, the entity it
    returns carries a store-assigned id and the name, e-mail, password hash
    and [is_active] given, and [find_by_id] on that id returns the same
    entity, in the same session and in a later one.  And [save] does
    return for every entity without a truthy id whose e-mail is not stored
    and whose texts hold no NUL, on a store that satisfies [wf] and whose
    sequence is within the range of the key column. *)
Theorem save_then_find_by_id_round_trip :
  forall (d : Database) (u : User.t),
    (forall (u' : User.t) (s : Session),
        SQLAlchemyUserRepository.save u (SessionLocal d) = (Returned u', s) ->
        exists k s' s'',
          u' = User.mk (Some k) (User.name u) (User.email u)
                       (User.password_hash u) (User.is_active u)
          /\ SQLAlchemyUserRepository.find_by_id k s
             = (Returned (Some u'), s')
          /\ SQLAlchemyUserRepository.find_by_id k
               (SessionLocal (database s))
             = (Returned (Some u'), s''))
    /\ (wf d ->
        users_id_seq d <= id_max ->
        truthy (User.id u) = false ->
        has_nul (User.name u) = false ->
        has_nul (User.email u) = false ->
        has_nul (User.password_hash u) = false ->
        (forall r, In r (users d) -> Row.email r <> User.email u) ->
        exists u' s,
          SQLAlchemyUserRepository.save u (SessionLocal d)
          = (Returned u', s)).
Proof.
  intros d u. split.
  - intros u' s Hsave.
    destruct (save_returned d u u' s Hsave) as (Hfind & -> & ->).
    exists (users_id_seq d). eexists _, _. split; [reflexivity|]. split.
    + run_session. rewrite Hfind. unfold Row_of_user. run_session.
      rewrite Z.eqb_refl. run_session. reflexivity.
    + run_session. rewrite Hfind. unfold Row_of_user. run_session.
      reflexivity.
  - intros Hwf Hmax Hid Hn He Hp Hnew. eexists _, _.
    apply save_insert; assumption.
Qed.

(** C8.  Over any sequence of Create-User and Delete-User calls on a store
    that satisfies [wf], every row stays in the table, at its place, with
    its id, name, e-mail and password hash, and a row that is inactive
    stays inactive. *)
Theorem rows_never_removed_nor_reactivated :
  forall (get_password_hash : string -> string) (ops : list operation)
         (d : Database),
    wf d ->
    forall n r,
      nth_error (users d) n = Some r ->
      exists r',
        nth_error (users (perform_all get_password_hash ops d)) n = Some r'
        /\ Row.id r' = Row.id r
        /\ Row.name r' = Row.name r
        /\ Row.email r' = Row.email r
        /\ Row.password_hash r' = Row.password_hash r
        /\ (Row.is_active r = false -> Row.is_active r' = false).
Proof.
  intros hash ops d Hwf. exact (perform_all_kept hash ops d Hwf).
Qed.

Lemma create_user_response_hash_independent
      (h h' : string -> string) (EmailStr : string -> option string)
      (request : CreateUserRequest.t) (d : Database) :
  has_nul (h (CreateUserRequest.password request))
  = has_nul (h' (CreateUserRequest.password request)) ->
  fst (create_user h EmailStr request d)
  = fst (create_user h' EmailStr request d).
Proof.
  destruct request as [name email password].
  cbn [CreateUserRequest.password]. intros Hsame.
  unfold create_user, CreateUserUseCase_execute.
  cbn [CreateUserRequest.name CreateUserRequest.email
       CreateUserRequest.password].
  run_session.
  destruct (find (Row.has_email email) (users d)) as [r|]; run_session.
  - reflexivity.
  - destruct (has_nul email) eqn:He; run_session; [reflexivity|].
    cbn [truthy]. run_session. unfold refused_text. rewrite He, Hsame.
    destruct (has_nul name); run_session; [reflexivity|].
    destruct (has_nul (h' password)); run_session; [reflexivity|].
    destruct (in_range (users_id_seq d)); run_session; [|reflexivity].
    destruct (existsb _ (users d)) eqn:Hex; run_session.
    + reflexivity.
    + apply unique_check_find in Hex.
      rewrite !find_app_last by (auto; apply has_id_true; reflexivity).
      run_session. reflexivity.
Qed.

(** C9.  The response body has the keys [id], [name], [email] and
    [is_active] and no other; the response built from a returned user does
    not depend on the user's password hash; and what the create route
    answers depends on the hasher in one respect only, whether the hash
    holds NUL, which the driver refuses. *)
Theorem response_never_exposes_password_hash :
  forall (EmailStr : string -> option string),
    (forall r : UserResponse.t,
        map fst (UserResponse_model_dump r)
        = ["id"; "name"; "email"; "is_active"]%string)
    /\ (forall (status_code : Z) (id : option Z) (name email : string)
               (is_active : bool) (password_hash password_hash' : string),
           respond EmailStr status_code
                   (Returned (User.mk id name email password_hash is_active))
           = respond EmailStr status_code
                     (Returned
                        (User.mk id name email password_hash' is_active)))
    /\ (forall (h h' : string -> string) (request : CreateUserRequest.t)
               (d : Database),
           has_nul (h (CreateUserRequest.password request))
           = has_nul (h' (CreateUserRequest.password request)) ->
           fst (create_user h EmailStr request d)
           = fst (create_user h' EmailStr request d)).
Proof.
  intros EmailStr. split; [|split].
  - intros r. reflexivity.
  - intros. reflexivity.
  - intros. now apply create_user_response_hash_independent.
Qed.

(** Without that condition the answers differ: a hash with NUL is refused
    by the driver and the route answers 400, a hash without is stored. *)
Lemma create_user_response_depends_on_nul_hash :
  fst (create_user nul_hasher accept_all
         (CreateUserRequest.mk "Bob" "bob@x.com" "pw456") alice_db)
  = HTTPException 400 nul_message
  /\ fst (create_user plain_hasher accept_all
            (CreateUserRequest.mk "Bob" "bob@x.com" "pw456") alice_db)
     = OK (user_body 2 "Bob" "bob@x.com" true).
Proof. split; reflexivity. Qed.

(** C10.  [save] tests the truthiness of the id: an entity with id 0 is
    saved exactly as the same entity without id, in every session; and on
    a table that has a row of key 0, saving an entity with id 0 appends a
    row under the next key of the sequence and leaves the row of key 0 as
    it was. *)
Theorem save_id_zero_inserts :
  (forall (name email password_hash : string) (is_active : bool)
          (s : Session),
      SQLAlchemyUserRepository.save
        (User.mk (Some 0) name email password_hash is_active) s
      = SQLAlchemyUserRepository.save
          (User.mk None name email password_hash is_active) s)
  /\ fst save_admin_as_0
     = Returned (User.mk (Some 1) "Admin" "admin@x.com" "$2b$12$admin" false)
  /\ users (database (snd save_admin_as_0))
     = [root; Row.mk 1 "Admin" "admin@x.com" "$2b$12$admin" false].
Proof.
  split; [|split].
  - intros. reflexivity.
  - reflexivity.
  - reflexivity.
Qed.

(** * Witnesses *)

Lemma wf_alice_db : wf alice_db.
Proof.
  constructor; simpl.
  - constructor; [simpl; tauto|constructor].
  - constructor; [simpl; tauto|constructor].
  - constructor; [simpl; lia|constructor].
  - lia.
Defined.

Lemma wf_inactive_db : wf inactive_db.
Proof.
  constructor; simpl.
  - constructor; [simpl; tauto|constructor].
  - constructor; [simpl; tauto|constructor].
  - constructor; [simpl; lia|constructor].
  - lia.
Defined.

Lemma alice_only (P : Row.t -> Prop) :
  P alice -> forall r, In r (users alice_db) -> P r.
Proof. intros HP r [<-|[]]. exact HP. Defined.

Lemma create_user_unseen_email_succeeds_witness :
  wf alice_db
  /\ users_id_seq alice_db <= id_max
  /\ has_nul "Bob" = false
  /\ has_nul "bob@x.com" = false
  /\ has_nul (plain_hasher "pw456") = false
  /\ (forall r, In r (users alice_db) -> Row.email r <> "bob@x.com"%string)
  /\ exists pk u s,
       CreateUserUseCase_execute plain_hasher "Bob" "bob@x.com" "pw456"
                                 (SessionLocal alice_db)
       = (Returned u, s)
       /\ User.id u = Some pk
       /\ pk = users_id_seq alice_db
       /\ User.is_active u = true
       /\ User.name u = "Bob"%string
       /\ User.email u = "bob@x.com"%string
       /\ users (database s)
          = users alice_db
            ++ [Row.mk pk "Bob" "bob@x.com" (plain_hasher "pw456") true].
Proof.
  assert (Hmax : users_id_seq alice_db <= id_max) by (vm_compute; discriminate).
  assert (Hnew : forall r, In r (users alice_db) ->
                           Row.email r <> "bob@x.com"%string).
  { apply alice_only. simpl. discriminate. }
  split; [exact wf_alice_db|]. split; [exact Hmax|].
  split; [reflexivity|]. split; [reflexivity|]. split; [reflexivity|].
  split; [exact Hnew|].
  exact (create_user_unseen_email_succeeds plain_hasher alice_db
           "Bob" "bob@x.com" "pw456" wf_alice_db Hmax eq_refl eq_refl eq_refl
           Hnew).
Defined.

Lemma create_user_duplicate_email_rejected_witness :
  In alice (users alice_db)
  /\ Row.email alice = "alice@x.com"%string
  /\ exists s,
       CreateUserUseCase_execute (fun p => p) "Alice" "alice@x.com" "pw123"
                                 (SessionLocal alice_db)
       = (Raised (ValueError "Email already registered"), s)
       /\ database s = alice_db.
Proof.
  assert (Hin : In alice (users alice_db)) by (simpl; left; reflexivity).
  split; [exact Hin|]. split; [reflexivity|].
  exact (create_user_duplicate_email_rejected (fun p => p) alice_db
           "Alice" "alice@x.com" "pw123" alice Hin eq_refl).
Defined.

Lemma delete_user_unknown_id_rejected_witness :
  (forall r, In r (users alice_db) -> Row.id r <> 999)
  /\ exists s,
       DeleteUserUseCase_execute 999 (SessionLocal alice_db)
       = (Raised (ValueError "User not found"), s)
       /\ database s = alice_db.
Proof.
  assert (Habs : forall r, In r (users alice_db) -> Row.id r <> 999).
  { apply alice_only. simpl. discriminate. }
  split; [exact Habs|].
  exact (delete_user_unknown_id_rejected alice_db 999 Habs).
Defined.

Lemma save_then_find_by_id_round_trip_witness :
  wf alice_db
  /\ users_id_seq alice_db <= id_max
  /\ truthy (User.id bob) = false
  /\ has_nul (User.name bob) = false
  /\ has_nul (User.email bob) = false
  /\ has_nul (User.password_hash bob) = false
  /\ (forall r, In r (users alice_db) -> Row.email r <> User.email bob)
  /\ exists u' s k s' s'',
       SQLAlchemyUserRepository.save bob (SessionLocal alice_db)
       = (Returned u', s)
       /\ u' = User.mk (Some k) (User.name bob) (User.email bob)
                       (User.password_hash bob) (User.is_active bob)
       /\ SQLAlchemyUserRepository.find_by_id k s = (Returned (Some u'), s')
       /\ SQLAlchemyUserRepository.find_by_id k (SessionLocal (database s))
          = (Returned (Some u'), s'').
Proof.
  assert (Hmax : users_id_seq alice_db <= id_max) by (vm_compute; discriminate).
  assert (Hnew : forall r, In r (users alice_db) ->
                           Row.email r <> User.email bob).
  { apply alice_only. simpl. discriminate. }
  split; [exact wf_alice_db|]. split; [exact Hmax|].
  split; [reflexivity|]. split; [reflexivity|]. split; [reflexivity|].
  split; [reflexivity|]. split; [exact Hnew|].
  destruct (proj2 (save_then_find_by_id_round_trip alice_db bob)
              wf_alice_db Hmax eq_refl eq_refl eq_refl eq_refl Hnew)
    as (u' & s & Hsave).
  destruct (proj1 (save_then_find_by_id_round_trip alice_db bob) u' s Hsave)
    as (k & s' & s'' & Hu' & Hsame & Hlater).
  exists u', s, k, s', s''. repeat split; assumption.
Defined.

Lemma rows_never_removed_nor_reactivated_witness :
  wf inactive_db
  /\ nth_error (users inactive_db) 0 = Some (deactivated alice)
  /\ exists r',
       nth_error (users (perform_all (fun p => p) sample_ops inactive_db)) 0
       = Some r'
       /\ Row.id r' = Row.id (deactivated alice)
       /\ Row.name r' = Row.name (deactivated alice)
       /\ Row.email r' = Row.email (deactivated alice)
       /\ Row.password_hash r' = Row.password_hash (deactivated alice)
       /\ (Row.is_active (deactivated alice) = false ->
           Row.is_active r' = false).
Proof.
  split; [exact wf_inactive_db|]. split; [reflexivity|].
  exact (rows_never_removed_nor_reactivated (fun p => p) sample_ops
           inactive_db
           wf_inactive_db 0%nat (deactivated alice) eq_refl).
Defined.

Lemma save_with_id_writes_every_column_witness :
  wf alice_db
  /\ In alice (users alice_db)
  /\ User.id bob_as_1 = Some (Row.id alice)
  /\ has_nul (User.name bob_as_1) = false
  /\ has_nul (User.email bob_as_1) = false
  /\ has_nul (User.password_hash bob_as_1) = false
  /\ (forall r, In r (users alice_db) ->
                Row.email r = User.email bob_as_1 -> r = alice)
  /\ users (database (snd (SQLAlchemyUserRepository.save bob_as_1
                             (SessionLocal alice_db))))
     = overwrite bob_as_1 (Row.id alice) (users alice_db)
  /\ overwrite (User.set_is_active false (User_of_row alice)) (Row.id alice)
               (users alice_db)
     = deactivate (Row.id alice) (users alice_db).
Proof.
  assert (Hin : In alice (users alice_db)) by (simpl; left; reflexivity).
  assert (Hemail : forall r, In r (users alice_db) ->
                             Row.email r = User.email bob_as_1 -> r = alice).
  { intros r [<-|[]]. reflexivity. }
  split; [exact wf_alice_db|]. split; [exact Hin|]. split; [reflexivity|].
  split; [reflexivity|]. split; [reflexivity|]. split; [reflexivity|].
  split; [exact Hemail|].
  exact (save_with_id_writes_every_column alice_db alice bob_as_1 wf_alice_db
           Hin eq_refl eq_refl eq_refl eq_refl Hemail).
Defined.

Lemma response_never_exposes_password_hash_witness :
  has_nul (plain_hasher "pw456") = has_nul (String.append "$2b$" "pw456")
  /\ fst (create_user plain_hasher accept_all
             (CreateUserRequest.mk "Bob" "bob@x.com" "pw456") alice_db)
     = fst (create_user (String.append "$2b$") accept_all
              (CreateUserRequest.mk "Bob" "bob@x.com" "pw456") alice_db).
Proof.
  split; [reflexivity|].
  exact (proj2 (proj2 (response_never_exposes_password_hash accept_all))
           plain_hasher (String.append "$2b$")
           (CreateUserRequest.mk "Bob" "bob@x.com" "pw456") alice_db
           eq_refl).
Defined.

(** * Further properties of the repository, the use cases and the routes *)

(** ** Lookups *)

Lemma find_by_email_unique (d : Database) (row : Row.t) :
  wf d -> In row (users d) ->
  find (Row.has_email (Row.email row)) (users d) = Some row.
Proof.
  intros Hwf Hin.
  destruct (find_present (Row.has_email (Row.email row)) (users d) row Hin
              (proj2 (has_email_true _ _) eq_refl)) as (y & Hy & Hiny & Hpy).
  rewrite Hy. f_equal. apply has_email_true in Hpy.
  exact (NoDup_map_inj Row.email (users d) y row (wf_emails d Hwf) Hiny Hin
           Hpy).
Qed.

Lemma find_by_id_found (d : Database) (row : Row.t) :
  wf d -> In row (users d) ->
  SQLAlchemyUserRepository.find_by_id (Row.id row) (SessionLocal d)
  = (Returned (Some (User_of_row row)),
     mkSession [Row.to_instance row] [] [(Row.id row, 0%nat)] d).
Proof.
  intros Hwf Hin. run_session.
  rewrite (find_by_id_unique d row Hwf Hin). run_session. reflexivity.
Qed.

Lemma find_by_email_found (d : Database) (row : Row.t) :
  wf d -> In row (users d) ->
  SQLAlchemyUserRepository.find_by_email (Row.email row) (SessionLocal d)
  = (Returned (Some (User_of_row row)),
     mkSession [Row.to_instance row] [] [(Row.id row, 0%nat)] d).
Proof.
  intros Hwf Hin. run_session.
  rewrite (find_by_email_unique d row Hwf Hin). run_session. reflexivity.
Qed.

(** X1.  On a store that satisfies [wf], [find_by_id] on the id of a stored
    row returns the entity with the five fields of that row, the password
    hash and an inactive flag included, and leaves the database as it
    was. *)
Theorem find_by_id_returns_stored_row :
  forall (d : Database) (row : Row.t),
    wf d ->
    In row (users d) ->
    exists s,
      SQLAlchemyUserRepository.find_by_id (Row.id row) (SessionLocal d)
      = (Returned (Some (User_of_row row)), s)
      /\ database s = d.
Proof.
  intros d row Hwf Hin. eexists. split.
  - apply find_by_id_found; assumption.
  - reflexivity.
Qed.

(** X2.  On a store that satisfies [wf], [find_by_email] on the e-mail of a
    stored row returns the entity with the five fields of that row and
    leaves the database as it was. *)
Theorem find_by_email_returns_stored_row :
  forall (d : Database) (row : Row.t),
    wf d ->
    In row (users d) ->
    exists s,
      SQLAlchemyUserRepository.find_by_email (Row.email row) (SessionLocal d)
      = (Returned (Some (User_of_row row)), s)
      /\ database s = d.
Proof.
  intros d row Hwf Hin. eexists. split.
  - apply find_by_email_found; assumption.
  - reflexivity.
Qed.

(** X3.  On any store, for an e-mail that holds no NUL, the two lookups
    answer [None] exactly when no row matches: absence is a result, not an
    exception. *)
Theorem find_returns_none_iff_absent :
  forall (d : Database) (user_id : Z) (email : string),
    has_nul email = false ->
    (fst (SQLAlchemyUserRepository.find_by_id user_id (SessionLocal d))
     = Returned None
     <-> (forall r, In r (users d) -> Row.id r <> user_id))
    /\ (fst (SQLAlchemyUserRepository.find_by_email email (SessionLocal d))
        = Returned None
        <-> (forall r, In r (users d) -> Row.email r <> email)).
Proof.
  intros d user_id email Hnul. split.
  - split.
    + run_session.
      destruct (find (Row.has_id user_id) (users d)) as [row|] eqn:Hfind;
        run_session; [discriminate|].
      intros _ r Hr He. pose proof (find_none _ _ Hfind r Hr) as Hp.
      apply (proj2 (has_id_true user_id r)) in He. congruence.
    + intros Habs. now rewrite find_by_id_absent.
  - split.
    + run_session.
      destruct (find (Row.has_email email) (users d)) as [row|] eqn:Hfind;
        run_session; [discriminate|].
      intros _ r Hr He. pose proof (find_none _ _ Hfind r Hr) as Hp.
      apply (proj2 (has_email_true email r)) in He. congruence.
    + intros Habs. now rewrite find_by_email_unseen.
Qed.

(** X18.  [find_by_email] with an e-mail that holds NUL, on a store whose
    e-mails hold none, does not answer [None]: it raises the driver's
    [ValueError], and the database is as it was. *)
Theorem find_by_email_nul_is_refused :
  forall (d : Database) (email : string),
    has_nul email = true ->
    (forall r, In r (users d) -> has_nul (Row.email r) = false) ->
    SQLAlchemyUserRepository.find_by_email email (SessionLocal d)
    = (Raised (ValueError nul_message), SessionLocal d).
Proof.
  intros d email Hnul Hclean. apply find_by_email_refused; [exact Hnul|].
  intros r Hr He. specialize (Hclean r Hr). congruence.
Qed.

(** ** Delete on the store *)

Lemma deactivate_absent (pk : Z) (tbl : list Row.t) :
  (forall r, In r tbl -> Row.id r <> pk) -> deactivate pk tbl = tbl.
Proof.
  intros Habs. unfold deactivate. rewrite <- (map_id tbl) at 2.
  apply map_ext_in. intros r Hr.
  destruct (Row.has_id pk r) eqn:Hid; [|reflexivity].
  apply has_id_true in Hid. now destruct (Habs r Hr).
Qed.

Lemma deactivate_comm (pk pk' : Z) (tbl : list Row.t) :
  deactivate pk (deactivate pk' tbl) = deactivate pk' (deactivate pk tbl).
Proof.
  unfold deactivate. rewrite !map_map. apply map_ext. intros r.
  unfold Row.has_id.
  destruct (Row.id r =? pk') eqn:H'; destruct (Row.id r =? pk) eqn:H;
    simpl; rewrite ?H, ?H'; reflexivity.
Qed.

Section DeleteStore.

Variable get_password_hash : string -> string.

(** What Delete leaves in the store, whether the id is stored or not. *)
Lemma delete_store (d : Database) (user_id : Z) :
  wf d ->
  snd (perform get_password_hash (Delete user_id) d)
  = mkDatabase (deactivate user_id (users d)) (users_id_seq d).
Proof.
  intros Hwf.
  destruct (id_stored_or_absent d user_id) as [(r & Hin & <-)|Habs].
  - destruct (delete_existing d r Hwf Hin) as (s & Hrun & Hdb).
    unfold perform. rewrite Hrun. simpl. exact Hdb.
  - unfold perform. rewrite delete_absent by assumption. simpl.
    rewrite deactivate_absent by assumption. now destruct d.
Qed.

End DeleteStore.

(** X4.  Delete is idempotent on the store: on a store that satisfies
    [wf], a second Delete of the same id, stored or not, leaves the store
    as the first one left it. *)
Theorem delete_idempotent_on_store :
  forall (get_password_hash : string -> string) (d : Database) (user_id : Z),
    wf d ->
    perform_all get_password_hash [Delete user_id; Delete user_id] d
    = perform_all get_password_hash [Delete user_id] d.
Proof.
  intros h d user_id Hwf. simpl.
  rewrite (delete_store h d user_id Hwf).
  rewrite delete_store by now apply wf_deactivate.
  simpl. now rewrite deactivate_idempotent.
Qed.

(** X5.  Deletes commute: on a store that satisfies [wf], deleting two ids
    in either order leaves the same store. *)
Theorem deletes_commute_on_store :
  forall (get_password_hash : string -> string) (d : Database)
         (user_id user_id' : Z),
    wf d ->
    perform_all get_password_hash [Delete user_id; Delete user_id'] d
    = perform_all get_password_hash [Delete user_id'; Delete user_id] d.
Proof.
  intros h d k k' Hwf. simpl.
  rewrite (delete_store h d k Hwf), (delete_store h d k' Hwf).
  rewrite !delete_store by now apply wf_deactivate.
  simpl. now rewrite deactivate_comm.
Qed.

(** X6.  Delete touches one key only: on any store, a row whose id is not
    the one deleted is found after the call at the same place and equal in
    every field, [is_active] included. *)
Theorem delete_leaves_other_rows :
  forall (d : Database) (user_id : Z) (n : nat) (r : Row.t),
    nth_error (users d) n = Some r ->
    Row.id r <> user_id ->
    nth_error
      (users (database (snd (DeleteUserUseCase_execute user_id
                               (SessionLocal d)))))
      n
    = Some r.
Proof.
  intros d user_id n r Hn Hid.
  assert (Hupd : forall pk o tbl,
             pk = user_id -> UPDATE pk o (users d) = inr tbl ->
             nth_error tbl n = Some r).
  { intros pk o tbl -> H. unfold UPDATE in H.
    destruct (existsb has_nul _); [discriminate|].
    destruct (existsb _ (users d)); [discriminate|]. injection H as <-.
    rewrite (map_nth_error _ n (users d) Hn).
    destruct (Row.has_id user_id r) eqn:Hr; [|reflexivity].
    apply has_id_true in Hr. contradiction. }
  assert (Hlen : forall tbl ext, nth_error tbl n = Some r ->
                                 nth_error (tbl ++ ext) n = Some r).
  { intros tbl ext H. rewrite nth_error_app1; [exact H|].
    apply nth_error_Some. congruence. }
  unfold DeleteUserUseCase_execute. run_session.
  destruct (find (Row.has_id user_id) (users d)) as [row|] eqn:Hfind;
    run_session; [|exact Hn].
  apply find_some in Hfind. destruct Hfind as [_ Hrow].
  apply has_id_true in Hrow.
  unfold User.set_is_active.
  cbn [User.id User.name User.email User.password_hash User.is_active].
  destruct (truthy (Some (Row.id row))); run_session.
  - rewrite Z.eqb_refl. run_session.
    destruct (UPDATE _ _ (users d)) as [e|tbl] eqn:Hu; run_session.
    + exact Hn.
    + exact (Hupd _ _ _ Hrow Hu).
  - destruct (UPDATE _ _ (users d)) as [e|tbl] eqn:Hu; run_session;
      [exact Hn|].
    pose proof (Hupd _ _ _ Hrow Hu) as Htbl.
    destruct (refused_text _ _ _); run_session; [exact Hn|].
    destruct (in_range (users_id_seq d)); run_session; [|exact Hn].
    destruct (existsb _ tbl); run_session; [exact Hn|].
    destruct (find _ (tbl ++ _)); run_session; apply Hlen; exact Htbl.
Qed.

(** ** The routes *)

(** X7.  [POST /users] with an e-mail a stored user has answers the
    [HTTPException] of status 400 whose detail is the message of the
    [ValueError], and leaves the database as it was. *)
Theorem create_user_route_duplicate_is_400 :
  forall (get_password_hash : string -> string)
         (EmailStr : string -> option string)
         (request : CreateUserRequest.t) (d : Database) (r : Row.t),
    In r (users d) ->
    Row.email r = CreateUserRequest.email request ->
    create_user get_password_hash EmailStr request d
    = (HTTPException 400 "Email already registered", d).
Proof.
  intros h EmailStr [name email password] d r Hin He. simpl in He.
  destruct (create_seen h d name email password r Hin He) as (s & Hrun & Hdb).
  unfold create_user.
  cbn [CreateUserRequest.name CreateUserRequest.email
       CreateUserRequest.password].
  rewrite Hrun, Hdb. reflexivity.
Qed.

(** X8.  [POST /users] with an unseen e-mail, on a store that satisfies
    [wf] and whose sequence is within the range of the key column, with a
    name, an e-mail and a password hash that hold no NUL and an address the
    response model accepts, answers the body
    [{id, name, email, is_active: true}] with the key the sequence
    assigned, and the database gains the one row that carries the hash of
    the password. *)
Theorem create_user_route_success :
  forall (get_password_hash : string -> string)
         (EmailStr : string -> option string)
         (request : CreateUserRequest.t) (d : Database) (normalised : string),
    wf d ->
    users_id_seq d <= id_max ->
    has_nul (CreateUserRequest.name request) = false ->
    has_nul (CreateUserRequest.email request) = false ->
    has_nul (get_password_hash (CreateUserRequest.password request)) = false ->
    (forall r, In r (users d) ->
               Row.email r <> CreateUserRequest.email request) ->
    EmailStr (CreateUserRequest.email request) = Some normalised ->
    create_user get_password_hash EmailStr request d
    = (OK (user_body (users_id_seq d) (CreateUserRequest.name request)
                     normalised true),
       mkDatabase
         (users d
          ++ [Row.mk (users_id_seq d) (CreateUserRequest.name request)
                     (CreateUserRequest.email request)
                     (get_password_hash (CreateUserRequest.password request))
                     true])
         (users_id_seq d + 1)).
Proof.
  intros h EmailStr [name email password] d normalised Hwf Hmax Hn He Hp
         Hnew Hvalid.
  cbn [CreateUserRequest.name CreateUserRequest.email
       CreateUserRequest.password] in *.
  unfold create_user.
  cbn [CreateUserRequest.name CreateUserRequest.email
       CreateUserRequest.password].
  rewrite create_unseen by assumption.
  unfold respond, UserResponse_model_validate.
  cbn [User.id User.email User.name User.is_active database].
  rewrite Hvalid. reflexivity.
Qed.


(** X9.  [DELETE /users/{user_id}] with an id no stored user has answers
    the [HTTPException] of status 404 with detail "User not found" and
    leaves the database as it was. *)
Theorem delete_user_route_unknown_is_404 :
  forall (EmailStr : string -> option string) (user_id : Z) (d : Database),
    (forall r, In r (users d) -> Row.id r <> user_id) ->
    delete_user EmailStr user_id d
    = (HTTPException 404 "User not found", d).
Proof.
  intros EmailStr user_id d Habs. unfold delete_user.
  rewrite delete_absent by assumption. reflexivity.
Qed.

(** X10.  [DELETE /users/{user_id}] with a stored id, on a store that
    satisfies [wf]: the row is deactivated in the database, and the answer
    is not the user but the server error, because the exception [save]
    raises is not a [ValueError] and the handler takes no other. *)
Theorem delete_user_route_stored_is_500 :
  forall (EmailStr : string -> option string) (d : Database) (row : Row.t),
    wf d ->
    In row (users d) ->
    delete_user EmailStr (Row.id row) d
    = (InternalServerError,
       mkDatabase (deactivate (Row.id row) (users d)) (users_id_seq d)).
Proof.
  intros EmailStr d row Hwf Hin.
  destruct (delete_existing d row Hwf Hin) as (s & Hrun & Hdb).
  unfold delete_user. rewrite Hrun, Hdb. reflexivity.
Qed.

(** ** The store over time *)

(** X11.  Every store that Create and Delete build from the empty one has
    pairwise distinct ids, pairwise distinct e-mails, and ids that are
    positive and below the next value of the sequence. *)
Theorem reachable_store_invariant :
  forall (get_password_hash : string -> string) (ops : list operation),
    NoDup (map Row.id
               (users (perform_all get_password_hash ops empty_database)))
    /\ NoDup (map Row.email
                  (users (perform_all get_password_hash ops empty_database)))
    /\ Forall (fun r =>
                 0 < Row.id r
                 < users_id_seq
                     (perform_all get_password_hash ops empty_database))
              (users (perform_all get_password_hash ops empty_database)).
Proof.
  intros h ops.
  destruct (perform_all_wf h ops empty_database wf_empty)
    as [Hids Hemails Hseq _].
  auto.
Qed.

Lemma clean_deactivate (pk : Z) (tbl : list Row.t) :
  clean tbl -> clean (deactivate pk tbl).
Proof.
  unfold clean, deactivate. intros H. rewrite Forall_map.
  revert H. apply Forall_impl. intros r Hr.
  now destruct (Row.has_id pk r).
Qed.

Section Clean.

Variable get_password_hash : string -> string.

Lemma perform_clean (op : operation) (d : Database) :
  wf d -> clean (users d) ->
  clean (users (snd (perform get_password_hash op d))).
Proof.
  intros Hwf Hclean. destruct op as [name email password|user_id].
  - destruct (create_store get_password_hash d name email password Hwf)
      as [->|(_ & Hnul & ->)]; [exact Hclean|].
    simpl. unfold clean. rewrite Forall_app. split; [exact Hclean|].
    constructor; [|constructor]. simpl.
    now apply refused_text_false_inv.
  - rewrite (delete_store get_password_hash d user_id Hwf). simpl.
    now apply clean_deactivate.
Qed.

Lemma perform_all_clean (ops : list operation) (d : Database) :
  wf d -> clean (users d) ->
  clean (users (perform_all get_password_hash ops d)).
Proof.
  revert d. induction ops as [|op ops IH]; intros d Hwf Hclean; simpl.
  - exact Hclean.
  - apply IH; [now apply perform_wf|now apply perform_clean].
Qed.

End Clean.

(** X19.  No stored text ever holds NUL: in every store that Create and
    Delete build from the empty one, whatever the names, e-mails,
    passwords and hasher, the name, e-mail and password hash of every row
    hold no NUL. *)
Theorem reachable_store_holds_no_nul :
  forall (get_password_hash : string -> string) (ops : list operation),
    Forall (fun r => has_nul (Row.name r) = false
                     /\ has_nul (Row.email r) = false
                     /\ has_nul (Row.password_hash r) = false)
           (users (perform_all get_password_hash ops empty_database)).
Proof.
  intros h ops.
  apply (perform_all_clean h ops empty_database wf_empty).
  constructor.
Qed.

(** X12.  A deleted user's e-mail stays taken: on a store that satisfies
    [wf], after Delete of a stored user, Create with that user's e-mail is
    rejected with "Email already registered" and changes nothing. *)
Theorem deleted_email_stays_taken :
  forall (get_password_hash : string -> string) (d : Database) (row : Row.t)
         (name password : string),
    wf d ->
    In row (users d) ->
    perform get_password_hash (Create name (Row.email row) password)
            (snd (perform get_password_hash (Delete (Row.id row)) d))
    = (Raised (ValueError "Email already registered"),
       snd (perform get_password_hash (Delete (Row.id row)) d)).
Proof.
  intros h d row name password Hwf Hin.
  set (d1 := snd (perform h (Delete (Row.id row)) d)).
  assert (Hd1 : d1 = mkDatabase (deactivate (Row.id row) (users d))
                                (users_id_seq d))
    by apply (delete_store h d (Row.id row) Hwf).
  destruct (create_seen h d1 name (Row.email row) password (deactivated row))
    as (s & Hrun & Hdb).
  - rewrite Hd1. unfold deactivate. simpl. apply in_map_iff. exists row.
    split; [|exact Hin]. unfold Row.has_id. now rewrite Z.eqb_refl.
  - reflexivity.
  - unfold perform at 1. rewrite Hrun, Hdb. reflexivity.
Qed.

(** X13.  A deleted user is still found: on a store that satisfies [wf],
    after Delete of a stored user, [find_by_id] on the id returns the
    entity with the same name, e-mail and password hash and with
    [is_active] false. *)
Theorem deleted_user_still_found_inactive :
  forall (get_password_hash : string -> string) (d : Database) (row : Row.t),
    wf d ->
    In row (users d) ->
    fst (SQLAlchemyUserRepository.find_by_id (Row.id row)
           (SessionLocal
              (snd (perform get_password_hash (Delete (Row.id row)) d))))
    = Returned (Some (User.mk (Some (Row.id row)) (Row.name row)
                              (Row.email row) (Row.password_hash row) false)).
Proof.
  intros h d row Hwf Hin.
  set (d1 := snd (perform h (Delete (Row.id row)) d)).
  assert (Hd1 : d1 = mkDatabase (deactivate (Row.id row) (users d))
                                (users_id_seq d))
    by apply (delete_store h d (Row.id row) Hwf).
  assert (Hwf1 : wf d1) by (rewrite Hd1; now apply wf_deactivate).
  assert (Hin1 : In (deactivated row) (users d1)).
  { rewrite Hd1. unfold deactivate. simpl. apply in_map_iff. exists row.
    split; [|exact Hin]. unfold Row.has_id. now rewrite Z.eqb_refl. }
  pose proof (find_by_id_found d1 (deactivated row) Hwf1 Hin1) as Hfound.
  simpl in Hfound. rewrite Hfound. reflexivity.
Qed.

(** ** Edge behaviour of [save] *)

(** X14.  [save] of an entity without a truthy id whose texts hold no NUL
    and whose e-mail a row already has raises [IntegrityError], on any
    store whose sequence is within the range of the key column, and the
    table is the one before the call. *)
Theorem save_duplicate_email_is_refused :
  forall (d : Database) (u : User.t) (r : Row.t),
    truthy (User.id u) = false ->
    has_nul (User.name u) = false ->
    has_nul (User.email u) = false ->
    has_nul (User.password_hash u) = false ->
    in_range (users_id_seq d) = true ->
    In r (users d) ->
    Row.email r = User.email u ->
    fst (SQLAlchemyUserRepository.save u (SessionLocal d))
    = Raised IntegrityError
    /\ users (database (snd (SQLAlchemyUserRepository.save u
                               (SessionLocal d))))
       = users d.
Proof.
  intros d u r Hid Hn Hem Hp Hrange Hin He.
  assert (Hex : existsb (fun r => Row.has_id (users_id_seq d) r
                                  || Row.has_email (User.email u) r)
                        (users d) = true).
  { apply existsb_exists. exists r. split; [exact Hin|].
    apply orb_true_iff. right. now apply has_email_true. }
  unfold SQLAlchemyUserRepository.save. rewrite Hid.
  run_session. rewrite (refused_text_false _ _ _ Hn Hem Hp), Hrange.
  run_session. rewrite Hex. run_session. split; reflexivity.
Qed.

(** X15.  [save] of an entity with a non-zero id within the range of the
    key column that no row has, with texts that hold no NUL and an e-mail
    that no row has, inserts: the table gains a row under the id given,
    with the entity's fields; the call then raises [InvalidRequestError]
    as on every pass through the merge branch. *)
Theorem save_unknown_id_inserts_under_that_id :
  forall (d : Database) (u : User.t) (pk : Z),
    User.id u = Some pk ->
    pk <> 0 ->
    in_range pk = true ->
    has_nul (User.name u) = false ->
    has_nul (User.email u) = false ->
    has_nul (User.password_hash u) = false ->
    (forall r, In r (users d) -> Row.id r <> pk) ->
    (forall r, In r (users d) -> Row.email r <> User.email u) ->
    fst (SQLAlchemyUserRepository.save u (SessionLocal d))
    = Raised InvalidRequestError
    /\ users (database (snd (SQLAlchemyUserRepository.save u
                               (SessionLocal d))))
       = users d ++ [Row_of_user pk u].
Proof.
  intros d u pk Hid Hpk Hrange Hn Hem Hp Hnoid Hnew.
  assert (Htruthy : truthy (Some pk) = true).
  { simpl. now apply negb_true_iff, Z.eqb_neq. }
  assert (Hfind : find (Row.has_id pk) (users d) = None).
  { apply find_absent. intros r Hr. unfold Row.has_id. apply Z.eqb_neq. auto. }
  assert (Hex : existsb (fun r => Row.has_id pk r
                                  || Row.has_email (User.email u) r)
                        (users d) = false).
  { apply existsb_absent. intros r Hr.
    rewrite has_email_false by auto. unfold Row.has_id.
    rewrite (proj2 (Z.eqb_neq _ _) (Hnoid r Hr)). reflexivity. }
  unfold SQLAlchemyUserRepository.save. rewrite Hid, Htruthy.
  run_session. rewrite Hfind. run_session.
  rewrite (refused_text_false _ _ _ Hn Hem Hp), Hrange. run_session.
  rewrite Hex. run_session. split; reflexivity.
Qed.

(** X21.  [save] of an entity with an id outside the range of the key
    column, with texts that hold no NUL, raises [DataError] on any store
    that has no row of that id, and the database is as it was. *)
Theorem save_id_out_of_range_is_refused :
  forall (d : Database) (u : User.t) (pk : Z),
    User.id u = Some pk ->
    in_range pk = false ->
    has_nul (User.name u) = false ->
    has_nul (User.email u) = false ->
    has_nul (User.password_hash u) = false ->
    (forall r, In r (users d) -> Row.id r <> pk) ->
    fst (SQLAlchemyUserRepository.save u (SessionLocal d)) = Raised DataError
    /\ database (snd (SQLAlchemyUserRepository.save u (SessionLocal d))) = d.
Proof.
  intros d u pk Hid Hrange Hn Hem Hp Hnoid.
  assert (Htruthy : truthy (Some pk) = true).
  { simpl. apply negb_true_iff, Z.eqb_neq. intros ->. discriminate. }
  assert (Hfind : find (Row.has_id pk) (users d) = None).
  { apply find_absent. intros r Hr. unfold Row.has_id. apply Z.eqb_neq. auto. }
  unfold SQLAlchemyUserRepository.save. rewrite Hid, Htruthy.
  run_session. rewrite Hfind. run_session.
  rewrite (refused_text_false _ _ _ Hn Hem Hp), Hrange. run_session.
  split; [reflexivity|]. apply database_eta.
Qed.

(** ** Create on the store *)

(** X16.  A created user is found under its e-mail: on a store that
    satisfies [wf] and whose sequence is within the range of the key
    column, after Create with an unseen e-mail and with a name, an e-mail
    and a password hash that hold no NUL, [find_by_email] returns the
    entity Create returned: the assigned id, the name and e-mail given,
    the hash of the password, active. *)
Theorem created_user_found_by_email :
  forall (get_password_hash : string -> string) (d : Database)
         (name email password : string),
    wf d ->
    users_id_seq d <= id_max ->
    has_nul name = false ->
    has_nul email = false ->
    has_nul (get_password_hash password) = false ->
    (forall r, In r (users d) -> Row.email r <> email) ->
    fst (SQLAlchemyUserRepository.find_by_email email
           (SessionLocal
              (snd (perform get_password_hash (Create name email password)
                            d))))
    = Returned (Some (User.mk (Some (users_id_seq d)) name email
                              (get_password_hash password) true))
    /\ fst (perform get_password_hash (Create name email password) d)
       = Returned (User.mk (Some (users_id_seq d)) name email
                           (get_password_hash password) true).
Proof.
  intros h d name email password Hwf Hmax Hn He Hp Hnew.
  set (row := Row.mk (users_id_seq d) name email (h password) true).
  assert (Hrun : perform h (Create name email password) d
                 = (Returned (User_of_row row),
                    mkDatabase (users d ++ [row]) (users_id_seq d + 1))).
  { unfold perform. rewrite create_unseen by assumption. reflexivity. }
  rewrite Hrun. split; [|reflexivity].
  assert (Hwf1 : wf (mkDatabase (users d ++ [row]) (users_id_seq d + 1)))
    by now apply wf_insert.
  assert (Hin1 : In row (users (mkDatabase (users d ++ [row])
                                           (users_id_seq d + 1)))).
  { simpl. rewrite in_app_iff. right. now left. }
  pose proof (find_by_email_found _ row Hwf1 Hin1) as Hfound.
  simpl in Hfound. simpl. rewrite Hfound. reflexivity.
Qed.

(** X17.  Create never rewrites a stored row: on any store, the table
    after Create is the table before, followed by at most one row. *)
Theorem create_only_appends :
  forall (get_password_hash : string -> string) (d : Database)
         (name email password : string),
    exists ext,
      users (snd (perform get_password_hash (Create name email password) d))
      = users d ++ ext
      /\ (length ext <= 1)%nat.
Proof.
  intros h d name email password.
  assert (Hsame : exists ext,
             users d = users d ++ ext /\ (length ext <= 1)%nat).
  { exists []. rewrite app_nil_r. auto. }
  unfold perform, CreateUserUseCase_execute. run_session.
  destruct (find (Row.has_email email) (users d)) as [r|]; run_session;
    [exact Hsame|].
  destruct (has_nul email); run_session; [exact Hsame|].
  cbn [truthy]. run_session.
  destruct (refused_text _ _ _); run_session; [exact Hsame|].
  destruct (in_range (users_id_seq d)); run_session; [|exact Hsame].
  destruct (existsb _ (users d)); run_session; [exact Hsame|].
  destruct (find _ (users d ++ _)); run_session;
    eexists; split; try reflexivity; simpl; lia.
Qed.

(** ** Witnesses of the further properties *)

Lemma wf_two_db : wf two_db.
Proof.
  constructor; simpl.
  - repeat constructor; simpl; intuition lia.
  - repeat constructor; simpl; intuition discriminate.
  - repeat constructor; simpl; lia.
  - lia.
Defined.

Lemma in_two_db_bob : In bob_row (users two_db).
Proof. simpl. right. left. reflexivity. Defined.

Lemma in_alice_db : In alice (users alice_db).
Proof. simpl. left. reflexivity. Defined.

Lemma find_by_id_returns_stored_row_witness :
  wf two_db
  /\ In bob_row (users two_db)
  /\ exists s,
       SQLAlchemyUserRepository.find_by_id (Row.id bob_row)
                                           (SessionLocal two_db)
       = (Returned (Some (User_of_row bob_row)), s)
       /\ database s = two_db.
Proof.
  split; [exact wf_two_db|]. split; [exact in_two_db_bob|].
  exact (find_by_id_returns_stored_row two_db bob_row wf_two_db
           in_two_db_bob).
Defined.

Lemma find_by_email_returns_stored_row_witness :
  wf two_db
  /\ In bob_row (users two_db)
  /\ exists s,
       SQLAlchemyUserRepository.find_by_email (Row.email bob_row)
                                              (SessionLocal two_db)
       = (Returned (Some (User_of_row bob_row)), s)
       /\ database s = two_db.
Proof.
  split; [exact wf_two_db|]. split; [exact in_two_db_bob|].
  exact (find_by_email_returns_stored_row two_db bob_row wf_two_db
           in_two_db_bob).
Defined.

Lemma delete_idempotent_on_store_witness :
  wf two_db
  /\ perform_all (fun p => p) [Delete 2; Delete 2] two_db
     = perform_all (fun p => p) [Delete 2] two_db.
Proof.
  split; [exact wf_two_db|].
  exact (delete_idempotent_on_store (fun p => p) two_db 2 wf_two_db).
Defined.

Lemma deletes_commute_on_store_witness :
  wf two_db
  /\ perform_all (fun p => p) [Delete 1; Delete 2] two_db
     = perform_all (fun p => p) [Delete 2; Delete 1] two_db.
Proof.
  split; [exact wf_two_db|].
  exact (deletes_commute_on_store (fun p => p) two_db 1 2 wf_two_db).
Defined.

Lemma delete_leaves_other_rows_witness :
  nth_error (users two_db) 1 = Some bob_row
  /\ Row.id bob_row <> 1
  /\ nth_error
       (users (database (snd (DeleteUserUseCase_execute 1
                                (SessionLocal two_db)))))
       1
     = Some bob_row.
Proof.
  assert (Hid : Row.id bob_row <> 1) by (simpl; lia).
  split; [reflexivity|]. split; [exact Hid|].
  exact (delete_leaves_other_rows two_db 1 1%nat bob_row eq_refl Hid).
Defined.

Lemma create_user_route_duplicate_is_400_witness :
  In alice (users alice_db)
  /\ Row.email alice
     = CreateUserRequest.email
         (CreateUserRequest.mk "Alice" "alice@x.com" "pw123")
  /\ create_user (fun p => p) accept_all
                 (CreateUserRequest.mk "Alice" "alice@x.com" "pw123")
                 alice_db
     = (HTTPException 400 "Email already registered", alice_db).
Proof.
  split; [exact in_alice_db|]. split; [reflexivity|].
  exact (create_user_route_duplicate_is_400 (fun p => p) accept_all
           (CreateUserRequest.mk "Alice" "alice@x.com" "pw123") alice_db
           alice in_alice_db eq_refl).
Defined.

Lemma create_user_route_success_witness :
  wf alice_db
  /\ users_id_seq alice_db <= id_max
  /\ has_nul (CreateUserRequest.name
                (CreateUserRequest.mk "Bob" "bob@x.com" "pw456")) = false
  /\ has_nul (CreateUserRequest.email
                (CreateUserRequest.mk "Bob" "bob@x.com" "pw456")) = false
  /\ has_nul (plain_hasher
                (CreateUserRequest.password
                   (CreateUserRequest.mk "Bob" "bob@x.com" "pw456"))) = false
  /\ (forall r, In r (users alice_db) ->
                Row.email r
                <> CreateUserRequest.email
                     (CreateUserRequest.mk "Bob" "bob@x.com" "pw456"))
  /\ accept_all (CreateUserRequest.email
                   (CreateUserRequest.mk "Bob" "bob@x.com" "pw456"))
     = Some "bob@x.com"%string
  /\ create_user plain_hasher accept_all
                 (CreateUserRequest.mk "Bob" "bob@x.com" "pw456") alice_db
     = (OK (user_body 2 "Bob" "bob@x.com" true),
        mkDatabase (users alice_db ++ [Row.mk 2 "Bob" "bob@x.com" "pw456" true])
                   3).
Proof.
  assert (Hmax : users_id_seq alice_db <= id_max) by (vm_compute; discriminate).
  assert (Hnew : forall r, In r (users alice_db) ->
                           Row.email r
                           <> CreateUserRequest.email
                                (CreateUserRequest.mk "Bob" "bob@x.com"
                                                      "pw456")).
  { apply alice_only. simpl. discriminate. }
  split; [exact wf_alice_db|]. split; [exact Hmax|].
  split; [reflexivity|]. split; [reflexivity|]. split; [reflexivity|].
  split; [exact Hnew|]. split; [reflexivity|].
  exact (create_user_route_success plain_hasher accept_all
           (CreateUserRequest.mk "Bob" "bob@x.com" "pw456") alice_db
           "bob@x.com" wf_alice_db Hmax eq_refl eq_refl eq_refl Hnew eq_refl).
Defined.


Lemma find_returns_none_iff_absent_witness :
  has_nul "bob@x.com" = false
  /\ (fst (SQLAlchemyUserRepository.find_by_id 999 (SessionLocal alice_db))
      = Returned None
      <-> (forall r, In r (users alice_db) -> Row.id r <> 999))
  /\ (fst (SQLAlchemyUserRepository.find_by_email "bob@x.com"
             (SessionLocal alice_db))
      = Returned None
      <-> (forall r, In r (users alice_db) ->
                     Row.email r <> "bob@x.com"%string)).
Proof.
  split; [reflexivity|].
  exact (find_returns_none_iff_absent alice_db 999 "bob@x.com" eq_refl).
Defined.

Lemma find_by_email_nul_is_refused_witness :
  has_nul nul_name = true
  /\ (forall r, In r (users alice_db) -> has_nul (Row.email r) = false)
  /\ SQLAlchemyUserRepository.find_by_email nul_name (SessionLocal alice_db)
     = (Raised (ValueError nul_message), SessionLocal alice_db).
Proof.
  assert (Hclean : forall r, In r (users alice_db) ->
                             has_nul (Row.email r) = false).
  { apply alice_only. reflexivity. }
  split; [reflexivity|]. split; [exact Hclean|].
  exact (find_by_email_nul_is_refused alice_db nul_name eq_refl Hclean).
Defined.

Lemma save_id_out_of_range_is_refused_witness :
  User.id carol_as_2_pow_63 = Some 9223372036854775808
  /\ in_range 9223372036854775808 = false
  /\ has_nul (User.name carol_as_2_pow_63) = false
  /\ has_nul (User.email carol_as_2_pow_63) = false
  /\ has_nul (User.password_hash carol_as_2_pow_63) = false
  /\ (forall r, In r (users alice_db) -> Row.id r <> 9223372036854775808)
  /\ fst (SQLAlchemyUserRepository.save carol_as_2_pow_63
            (SessionLocal alice_db))
     = Raised DataError
  /\ database (snd (SQLAlchemyUserRepository.save carol_as_2_pow_63
                       (SessionLocal alice_db)))
     = alice_db.
Proof.
  assert (Hnoid : forall r, In r (users alice_db) ->
                            Row.id r <> 9223372036854775808).
  { apply alice_only. simpl. discriminate. }
  split; [reflexivity|]. split; [reflexivity|]. split; [reflexivity|].
  split; [reflexivity|]. split; [reflexivity|]. split; [exact Hnoid|].
  exact (save_id_out_of_range_is_refused alice_db carol_as_2_pow_63
           9223372036854775808 eq_refl eq_refl eq_refl eq_refl eq_refl Hnoid).
Defined.

Lemma delete_user_route_unknown_is_404_witness :
  (forall r, In r (users alice_db) -> Row.id r <> 999)
  /\ delete_user accept_all 999 alice_db
     = (HTTPException 404 "User not found", alice_db).
Proof.
  assert (Habs : forall r, In r (users alice_db) -> Row.id r <> 999).
  { apply alice_only. simpl. discriminate. }
  split; [exact Habs|].
  exact (delete_user_route_unknown_is_404 accept_all 999 alice_db Habs).
Defined.

Lemma delete_user_route_stored_is_500_witness :
  wf two_db
  /\ In bob_row (users two_db)
  /\ delete_user accept_all (Row.id bob_row) two_db
     = (InternalServerError,
        mkDatabase (deactivate (Row.id bob_row) (users two_db))
                   (users_id_seq two_db)).
Proof.
  split; [exact wf_two_db|]. split; [exact in_two_db_bob|].
  exact (delete_user_route_stored_is_500 accept_all two_db bob_row wf_two_db
           in_two_db_bob).
Defined.

Lemma deleted_email_stays_taken_witness :
  wf two_db
  /\ In bob_row (users two_db)
  /\ perform (fun p => p) (Create "Robert" (Row.email bob_row) "pw789")
             (snd (perform (fun p => p) (Delete (Row.id bob_row)) two_db))
     = (Raised (ValueError "Email already registered"),
        snd (perform (fun p => p) (Delete (Row.id bob_row)) two_db)).
Proof.
  split; [exact wf_two_db|]. split; [exact in_two_db_bob|].
  exact (deleted_email_stays_taken (fun p => p) two_db bob_row "Robert"
           "pw789" wf_two_db in_two_db_bob).
Defined.

Lemma deleted_user_still_found_inactive_witness :
  wf two_db
  /\ In bob_row (users two_db)
  /\ fst (SQLAlchemyUserRepository.find_by_id (Row.id bob_row)
            (SessionLocal
               (snd (perform (fun p => p) (Delete (Row.id bob_row)) two_db))))
     = Returned (Some (User.mk (Some (Row.id bob_row)) (Row.name bob_row)
                               (Row.email bob_row)
                               (Row.password_hash bob_row) false)).
Proof.
  split; [exact wf_two_db|]. split; [exact in_two_db_bob|].
  exact (deleted_user_still_found_inactive (fun p => p) two_db bob_row
           wf_two_db in_two_db_bob).
Defined.

Lemma save_duplicate_email_is_refused_witness :
  truthy (User.id eve) = false
  /\ has_nul (User.name eve) = false
  /\ has_nul (User.email eve) = false
  /\ has_nul (User.password_hash eve) = false
  /\ in_range (users_id_seq alice_db) = true
  /\ In alice (users alice_db)
  /\ Row.email alice = User.email eve
  /\ fst (SQLAlchemyUserRepository.save eve (SessionLocal alice_db))
     = Raised IntegrityError
  /\ users (database (snd (SQLAlchemyUserRepository.save eve
                             (SessionLocal alice_db))))
     = users alice_db.
Proof.
  split; [reflexivity|]. split; [reflexivity|]. split; [reflexivity|].
  split; [reflexivity|]. split; [reflexivity|]. split; [exact in_alice_db|].
  split; [reflexivity|].
  exact (save_duplicate_email_is_refused alice_db eve alice eq_refl eq_refl
           eq_refl eq_refl eq_refl in_alice_db eq_refl).
Defined.

Lemma save_unknown_id_inserts_under_that_id_witness :
  User.id carol_as_7 = Some 7
  /\ 7 <> 0
  /\ in_range 7 = true
  /\ has_nul (User.name carol_as_7) = false
  /\ has_nul (User.email carol_as_7) = false
  /\ has_nul (User.password_hash carol_as_7) = false
  /\ (forall r, In r (users alice_db) -> Row.id r <> 7)
  /\ (forall r, In r (users alice_db) -> Row.email r <> User.email carol_as_7)
  /\ fst (SQLAlchemyUserRepository.save carol_as_7 (SessionLocal alice_db))
     = Raised InvalidRequestError
  /\ users (database (snd (SQLAlchemyUserRepository.save carol_as_7
                             (SessionLocal alice_db))))
     = users alice_db ++ [Row_of_user 7 carol_as_7].
Proof.
  assert (Hpk : 7 <> 0) by lia.
  assert (Hnoid : forall r, In r (users alice_db) -> Row.id r <> 7).
  { apply alice_only. simpl. lia. }
  assert (Hnew : forall r, In r (users alice_db) ->
                           Row.email r <> User.email carol_as_7).
  { apply alice_only. simpl. discriminate. }
  split; [reflexivity|]. split; [exact Hpk|]. split; [reflexivity|].
  split; [reflexivity|]. split; [reflexivity|]. split; [reflexivity|].
  split; [exact Hnoid|]. split; [exact Hnew|].
  exact (save_unknown_id_inserts_under_that_id alice_db carol_as_7 7 eq_refl
           Hpk eq_refl eq_refl eq_refl eq_refl Hnoid Hnew).
Defined.

Lemma created_user_found_by_email_witness :
  wf alice_db
  /\ users_id_seq alice_db <= id_max
  /\ has_nul "Bob" = false
  /\ has_nul "bob@x.com" = false
  /\ has_nul (plain_hasher "pw456") = false
  /\ (forall r, In r (users alice_db) -> Row.email r <> "bob@x.com"%string)
  /\ fst (SQLAlchemyUserRepository.find_by_email "bob@x.com"
            (SessionLocal
               (snd (perform plain_hasher (Create "Bob" "bob@x.com" "pw456")
                             alice_db))))
     = Returned (Some (User.mk (Some (users_id_seq alice_db)) "Bob"
                               "bob@x.com" (plain_hasher "pw456") true))
  /\ fst (perform plain_hasher (Create "Bob" "bob@x.com" "pw456") alice_db)
     = Returned (User.mk (Some (users_id_seq alice_db)) "Bob" "bob@x.com"
                         (plain_hasher "pw456") true).
Proof.
  assert (Hmax : users_id_seq alice_db <= id_max) by (vm_compute; discriminate).
  assert (Hnew : forall r, In r (users alice_db) ->
                           Row.email r <> "bob@x.com"%string).
  { apply alice_only. simpl. discriminate. }
  split; [exact wf_alice_db|]. split; [exact Hmax|].
  split; [reflexivity|]. split; [reflexivity|]. split; [reflexivity|].
  split; [exact Hnew|].
  exact (created_user_found_by_email plain_hasher alice_db "Bob" "bob@x.com"
           "pw456" wf_alice_db Hmax eq_refl eq_refl eq_refl Hnew).
Defined.
